(** * NorthStar: risk assessment and pass evaluation

    A shallow embedding of the decision logic of the NorthStar backend:

    - [backend/app/services/space_weather_service.py]
      (class [SpaceWeatherService]),
    - [backend/app/services/satellite_service.py]
      (class [SatelliteService]),
    - [backend/app/models/schemas.py] (the pydantic models).

    Python values are embedded as follows.  A [float] is a [pyfloat]: nan,
    an infinity, the negative zero, or a finite value carried as an exact
    rational (every finite double is a dyadic rational, and comparisons of
    finite doubles with each other and with [int] literals are those of
    the rationals).  An [int] is a [Z].  A [str] is a [string].  A naive
    [datetime] is a number of microseconds on the proleptic time line and a
    [timedelta] is the normalised triple that CPython stores.  Calls to
    [datetime.utcnow()] and to the structured logger are effects: they run
    in a state monad over a [World] holding the wall clock and the log. *)

From Stdlib Require Import ZArith QArith Lqa String Ascii List Bool Lia.
From Stdlib Require Import Sorted Permutation.
From Stdlib Require Import DecimalString.
From ExtLib Require Import Structures.Monad Structures.MonadState.
From ExtLib Require Import Data.Monads.StateMonad.
Import ListNotations MonadNotation.

Local Open Scope monad_scope.
Local Open Scope string_scope.
Local Open Scope Z_scope.

(* ===================================================================== *)
(** ** Python strings *)
(* ===================================================================== *)

Module PyStr.

(** [str(n)] for an [int]. *)
Definition of_int (n : Z) : string := NilZero.string_of_int (Z.to_int n).

Definition ascii_upper (c : ascii) : ascii :=
  let n := nat_of_ascii c in
  if (97 <=? n)%nat && (n <=? 122)%nat then ascii_of_nat (n - 32) else c.

Definition ascii_lower (c : ascii) : ascii :=
  let n := nat_of_ascii c in
  if (65 <=? n)%nat && (n <=? 90)%nat then ascii_of_nat (n + 32) else c.

(** [s.isascii()].  A [string] here stands for a Python [str] made of
    the characters it lists; on text in which every character is ASCII
    the functions below are the methods of [str].  Outside ASCII
    [str.lower] follows Unicode (the Kelvin sign lowers to "k") and
    [lower] does not, so what is proved through [lower] is stated of
    ASCII text. *)
Definition isascii (s : string) : bool :=
  forallb (fun c => (nat_of_ascii c <? 128)%nat) (list_ascii_of_string s).

(** [s.lower()] on ASCII text. *)
Fixpoint lower (s : string) : string :=
  match s with
  | EmptyString => EmptyString
  | String c r => String (ascii_lower c) (lower r)
  end.

(** [s.capitalize()]: first character upper-cased, the rest lower-cased
    (on ASCII text, which is all the service feeds it). *)
Definition capitalize (s : string) : string :=
  match s with
  | EmptyString => EmptyString
  | String c r => String (ascii_upper c) (lower r)
  end.

(** [x in [a, b, ...]] on strings. *)
Definition mem (x : string) (l : list string) : bool :=
  existsb (String.eqb x) l.

(** [sep.join(parts)]. *)
Definition join (sep : string) (parts : list string) : string :=
  String.concat sep parts.

(** An f-string: the concatenation of its literal and formatted pieces. *)
Definition fstring (pieces : list string) : string :=
  String.concat "" pieces.

(** [s.startswith(pre)]. *)
Definition startswith (s pre : string) : bool := String.prefix pre s.

(** [needle in hay] on strings: [needle] occurs somewhere in [hay]. *)
Fixpoint contains (needle hay : string) : bool :=
  String.prefix needle hay
  || match hay with
     | EmptyString => false
     | String _ rest => contains needle rest
     end.

(** [s.endswith(suf)]: the last [len(suf)] characters of [s] are [suf]. *)
Definition endswith (s suf : string) : bool :=
  let l := list_ascii_of_string s in
  let f := list_ascii_of_string suf in
  (length f <=? length l)%nat
  && (string_of_list_ascii (skipn (length l - length f) l) =? suf)%string.

(** [s[:n]]: at most the first [n] characters. *)
Definition slice_to (n : nat) (s : string) : string := String.substring 0 n s.

(** [any(word in text for word in words)]. *)
Definition any_in (words : list string) (text : string) : bool :=
  existsb (fun word => contains word text) words.

End PyStr.

(* ===================================================================== *)
(** ** Python floats *)
(* ===================================================================== *)

Inductive pyfloat : Type :=
| FNan
| FInf (negative : bool)
| FNegZero
| FFin (q : Q).

Module PyFloat.

Definition of_int (n : Z) : pyfloat := FFin (inject_Z n).

(** The rational value of a float that is neither nan nor infinite. *)
Definition value (x : pyfloat) : Q :=
  match x with
  | FFin q => q
  | _ => 0%Q
  end.

(** Three-way comparison; [None] when an operand is nan, in which case
    every ordering test of Python is [False]. *)
Definition compare (x y : pyfloat) : option comparison :=
  match x, y with
  | FNan, _ | _, FNan => None
  | FInf a, FInf b =>
      Some (if a then (if b then Eq else Lt) else (if b then Gt else Eq))
  | FInf a, _ => Some (if a then Lt else Gt)
  | _, FInf b => Some (if b then Gt else Lt)
  | _, _ => Some (value x ?= value y)%Q
  end.

Definition ltb (x y : pyfloat) : bool :=
  match compare x y with Some Lt => true | _ => false end.
Definition leb (x y : pyfloat) : bool :=
  match compare x y with Some Lt | Some Eq => true | _ => false end.
Definition gtb (x y : pyfloat) : bool :=
  match compare x y with Some Gt => true | _ => false end.
Definition geb (x y : pyfloat) : bool :=
  match compare x y with Some Gt | Some Eq => true | _ => false end.

(** [f"{x:.1f}"]: the exact value rounded to one decimal, ties to even;
    the sign is printed even when the rounded magnitude is zero. *)
Definition tenths (q : Q) : Z :=
  let n := Z.abs (Qnum q) in
  let d := Z.pos (Qden q) in
  let t := (10 * n) / d in
  let r := (10 * n) mod d in
  if d <? 2 * r then t + 1
  else if 2 * r =? d then (if Z.even t then t else t + 1)
  else t.

Definition format_1f (x : pyfloat) : string :=
  match x with
  | FNan => "nan"
  | FInf false => "inf"
  | FInf true => "-inf"
  | FNegZero => "-0.0"
  | FFin q =>
      let t := tenths q in
      PyStr.fstring [ (if Qnum q <? 0 then "-" else "");
                      PyStr.of_int (t / 10); "."; PyStr.of_int (t mod 10) ]
  end.

End PyFloat.

Declare Scope pyfloat_scope.
Delimit Scope pyfloat_scope with pyf.
Bind Scope pyfloat_scope with pyfloat.
Notation "x <! y" := (PyFloat.ltb x y) (at level 70) : pyfloat_scope.
Notation "x <=! y" := (PyFloat.leb x y) (at level 70) : pyfloat_scope.
Notation "x >! y" := (PyFloat.gtb x y) (at level 70) : pyfloat_scope.
Notation "x >=! y" := (PyFloat.geb x y) (at level 70) : pyfloat_scope.

(** The int literals the services compare against, read as floats. *)
Coercion PyFloat.of_int : Z >-> pyfloat.

(* ===================================================================== *)
(** ** [datetime] and [timedelta] *)
(* ===================================================================== *)

(** A naive [datetime]: microseconds since 0001-01-01T00:00:00. *)
Definition datetime : Type := Z.

(** A [timedelta] as CPython keeps it: [0 <= seconds < 86400] and
    [0 <= microseconds < 1000000], the sign living in [days] alone. *)
Record timedelta : Type := mk_timedelta
  { days : Z; seconds : Z; microseconds : Z }.

Module Datetime.

Definition us_per_second : Z := 1000000.
Definition us_per_day : Z := 86400 * us_per_second.

(** Normalisation done by the [timedelta] constructor. *)
Definition normalize (us : Z) : timedelta :=
  {| days := us / us_per_day;
     seconds := (us mod us_per_day) / us_per_second;
     microseconds := us mod us_per_second |}.

Definition to_us (d : timedelta) : Z :=
  (days d * 86400 + seconds d) * us_per_second + microseconds d.

(** [timedelta(days=d, hours=h, minutes=m, seconds=s)]. *)
Definition make (d h m s : Z) : timedelta :=
  normalize ((((d * 24 + h) * 60 + m) * 60 + s) * us_per_second).

(** [a - b] on two datetimes. *)
Definition sub (a b : datetime) : timedelta := normalize (a - b).

(** [a - d] and [a + d] for a datetime and a timedelta. *)
Definition minus (a : datetime) (d : timedelta) : datetime := a - to_us d.
Definition plus (a : datetime) (d : timedelta) : datetime := a + to_us d.

(** [d.total_seconds() < n] for an int [n], exactly. *)
Definition total_seconds_lt (d : timedelta) (n : Z) : bool :=
  to_us d <? n * us_per_second.

End Datetime.

(* ===================================================================== *)
(** ** The world: wall clock and structured log *)
(* ===================================================================== *)

(** One [logger.error(event, error=...)] record. *)
Record LogEvent : Type := mk_event
  { level : string; event : string; error : string }.

(** [clock] gives the reading of each successive [datetime.utcnow()]
    call; [reads] counts the calls made so far. *)
Record World : Type := mk_world
  { clock : nat -> datetime; reads : nat; log : list LogEvent }.

Definition IO : Type -> Type := state World.

Definition utcnow : IO datetime :=
  w <- get ;;
  put {| clock := clock w; reads := S (reads w); log := log w |} ;;
  ret (clock w (reads w)).

Definition logger_error (ev err : string) : IO unit :=
  w <- get ;;
  put {| clock := clock w; reads := reads w;
         log := (log w ++ [ {| level := "error"; event := ev; error := err |} ])%list |}.

Definition run {A : Type} (c : IO A) (w : World) : A * World := runState c w.

(* ===================================================================== *)
(** ** The pydantic models of [schemas.py] *)
(* ===================================================================== *)

(** What [Field(...)] can constrain on a numeric field; a field declared
    with a description only carries no bound. *)
Record FieldInfo : Type := Field { ge : option Z; le : option Z }.

Definition unconstrained : FieldInfo := {| ge := None; le := None |}.

Inductive ValidationError : Type :=
| validation_error (model field : string).

Definition field_ok (fi : FieldInfo) (v : pyfloat) : bool :=
  match ge fi with Some b => (v >=! b)%pyf | None => true end
  && match le fi with Some b => (v <=! b)%pyf | None => true end.

Definition optional_field_ok (fi : FieldInfo) (v : option pyfloat) : bool :=
  match v with Some x => field_ok fi x | None => true end.

(** [class AlertSeverity(str, Enum)]. *)
Inductive AlertSeverity : Type := INFO | MODERATE | HIGH | SEVERE.

Module SolarFlare.
Record t : Type := make
  { timestamp : datetime;
    class_type : string;
    scale : pyfloat;
    region : option string;
    peak_time : option datetime;
    end_time : option datetime }.
End SolarFlare.

Module CME.
Record t : Type := make
  { timestamp : datetime;
    speed_kms : pyfloat;
    earth_directed : bool;
    estimated_arrival : option datetime;
    impact_probability : option pyfloat }.

Definition impact_probability_field : FieldInfo :=
  {| ge := Some 0; le := Some 1 |}.

(** [CME(...)]: the only declared constraint is on
    [impact_probability]. *)
Definition create (ts : datetime) (speed : pyfloat) (directed : bool)
    (arrival : option datetime) (prob : option pyfloat)
  : ValidationError + t :=
  if optional_field_ok impact_probability_field prob
  then inr (make ts speed directed arrival prob)
  else inl (validation_error "CME" "impact_probability").
End CME.

Module SpaceWeatherStatus.
Record t : Type := make
  { timestamp : datetime;
    kp_current : pyfloat;
    kp_forecast_3h : option pyfloat;
    recent_flares : list SolarFlare.t;
    active_cmes : list CME.t;
    gps_degradation_risk : string;
    hf_radio_risk : string;
    satellite_risk : string;
    aurora_visibility : option string;
    summary : string }.
End SpaceWeatherStatus.

Module SpaceWeatherImpact.
Record t : Type := make
  { what_happened : string;
    potential_impacts : list string;
    who_should_care : list string;
    actionable_guidance : string;
    severity : AlertSeverity }.
End SpaceWeatherImpact.

Module SatellitePass.
Record t : Type := make
  { satellite_name : string;
    satellite_id : Z;
    start_time : datetime;
    max_elevation_time : datetime;
    end_time : datetime;
    max_elevation : pyfloat;
    start_azimuth : pyfloat;
    max_azimuth : pyfloat;
    end_azimuth : pyfloat;
    magnitude : option pyfloat;
    duration_seconds : Z;
    worth_watching : bool;
    commentary : option string }.

(** Every [Field(...)] of the model gives a description (and for
    [magnitude] a default) and nothing else. *)
Definition max_elevation_field : FieldInfo := unconstrained.
Definition start_azimuth_field : FieldInfo := unconstrained.
Definition max_azimuth_field : FieldInfo := unconstrained.
Definition end_azimuth_field : FieldInfo := unconstrained.
Definition magnitude_field : FieldInfo := unconstrained.

(** [SatellitePass(...)]: pydantic checks each field against its own
    declaration; the model declares no validator relating two fields. *)
Definition create (name : string) (id : Z)
    (start peak finish : datetime)
    (max_el start_az max_az end_az : pyfloat) (mag : option pyfloat)
    (duration : Z) (worth : bool) (comment : option string)
  : ValidationError + t :=
  if negb (field_ok max_elevation_field max_el)
  then inl (validation_error "SatellitePass" "max_elevation")
  else if negb (field_ok start_azimuth_field start_az)
  then inl (validation_error "SatellitePass" "start_azimuth")
  else if negb (field_ok max_azimuth_field max_az)
  then inl (validation_error "SatellitePass" "max_azimuth")
  else if negb (field_ok end_azimuth_field end_az)
  then inl (validation_error "SatellitePass" "end_azimuth")
  else if negb (optional_field_ok magnitude_field mag)
  then inl (validation_error "SatellitePass" "magnitude")
  else inr (make name id start peak finish max_el start_az max_az end_az
                 mag duration worth comment).
End SatellitePass.

(* ===================================================================== *)
(** ** [SpaceWeatherService] *)
(* ===================================================================== *)

(** An exception instance, with the text [str(e)] gives. *)
Inductive PyException : Type := Exception (message : string).

Definition str_exc (e : PyException) : string :=
  match e with Exception m => m end.

(** One slot of [asyncio.gather(..., return_exceptions=True)]: the value
    the awaited coroutine returned, or the exception it raised. *)
Inductive gathered (A : Type) : Type :=
| Returned (value : A)
| Raised (exc : PyException).
Arguments Returned {A} value.
Arguments Raised {A} exc.

(** A decoded JSON document, as [response.json()] returns it. *)
#[local] Unset Elimination Schemes.
Inductive json : Type :=
| JNull
| JBool (b : bool)
| JInt (n : Z)
| JFloat (x : pyfloat)
| JStr (s : string)
| JList (items : list json)
| JObject (members : list (string * json)).
#[local] Set Elimination Schemes.

(** The builtin [float(v)] on a decoded JSON value.  The conversions of
    an [int] (which rounds, and overflows on huge values) and of a [str]
    (which parses) are taken as given; the other cases are fixed by the
    language: a float is returned as it is, a bool counts as 0 or 1, and
    [None], a list or a dict raise [TypeError]. *)
Definition builtin_float
    (float_of_int : Z -> PyException + pyfloat)
    (float_of_str : string -> PyException + pyfloat)
    (v : json) : PyException + pyfloat :=
  match v with
  | JFloat x => inr x
  | JBool b => inr (if b then FFin 1 else FFin 0)
  | JInt n => float_of_int n
  | JStr s => float_of_str s
  | JNull =>
      inl (Exception
             "float() argument must be a string or a real number, not 'NoneType'")
  | JList _ =>
      inl (Exception
             "float() argument must be a string or a real number, not 'list'")
  | JObject _ =>
      inl (Exception
             "float() argument must be a string or a real number, not 'dict'")
  end.

Module SpaceWeatherService.

Import SpaceWeatherStatus.

Definition _assess_gps_risk (kp : pyfloat) (cmes : list CME.t) : string :=
  if (kp >=! 7)%pyf || existsb CME.earth_directed cmes then "high"
  else if (kp >=! 5)%pyf then "moderate"
  else if (kp >=! 4)%pyf then "minor"
  else "none".

(** The list comprehension of [_assess_hf_radio_risk].  The wall clock
    is read once for every flare that passes the class test, because
    [and] evaluates its right operand only then; the comparison is on
    the [seconds] attribute of the difference. *)
Fixpoint recent_strong (flares : list SolarFlare.t)
  : IO (list SolarFlare.t) :=
  match flares with
  | [] => ret []
  | f :: rest =>
      if PyStr.mem (SolarFlare.class_type f) ["M"; "X"] then
        now <- utcnow ;;
        tl <- recent_strong rest ;;
        ret (if seconds (Datetime.sub now (SolarFlare.timestamp f)) <? 3600
             then f :: tl else tl)
      else recent_strong rest
  end.

Definition _assess_hf_radio_risk (flares : list SolarFlare.t) : IO string :=
  match flares with
  | [] => ret "none"
  | _ :: _ =>
      strong <- recent_strong flares ;;
      ret (if existsb (fun f => SolarFlare.class_type f =? "X")%string strong
           then "high"
           else match strong with
                | _ :: _ => "moderate"
                | [] => "minor"
                end)
  end.

Definition _assess_satellite_risk (kp : pyfloat)
    (flares : list SolarFlare.t) (cmes : list CME.t) : string :=
  if (kp >=! 8)%pyf
     || existsb (fun f => (SolarFlare.class_type f =? "X")%string
                          && (SolarFlare.scale f >! 5)%pyf) flares
  then "high"
  else if (kp >=! 6)%pyf
          || existsb (fun f => SolarFlare.class_type f =? "X")%string flares
  then "moderate"
  else if (kp >=! 5)%pyf then "minor"
  else "none".

Definition _assess_aurora_visibility (kp : pyfloat) : string :=
  if (kp >=! 8)%pyf then "visible_mid_latitudes"
  else if (kp >=! 6)%pyf then "visible_high_latitudes"
  else if (kp >=! 4)%pyf then "visible_polar_regions"
  else "unlikely".

Definition _generate_status_summary (kp : pyfloat)
    (flares : list SolarFlare.t) (cmes : list CME.t)
    (gps_risk hf_risk sat_risk : string) : string :=
  let kp_desc :=
    if (kp <! 4)%pyf then "Quiet geomagnetic conditions"
    else if (kp <! 5)%pyf then "Unsettled geomagnetic conditions"
    else if (kp <! 6)%pyf then "Active geomagnetic conditions"
    else if (kp <! 7)%pyf then "Minor geomagnetic storm"
    else if (kp <! 8)%pyf then "Moderate geomagnetic storm"
    else "Strong geomagnetic storm" in
  let summary :=
    PyStr.fstring ["Status: "; kp_desc; " (Kp "; PyFloat.format_1f kp; ")."] in
  let impacts :=
    ((if PyStr.mem gps_risk ["moderate"; "high"]
      then [PyStr.fstring [PyStr.capitalize gps_risk;
                           " GPS degradation possible"]]
      else [])
     ++
     (if PyStr.mem hf_risk ["moderate"; "high"]
      then [PyStr.fstring [PyStr.capitalize hf_risk;
                           " HF radio disruption"]]
      else []))%list in
  match impacts with
  | _ :: _ => PyStr.fstring [summary; " "; PyStr.join "; " impacts; "."]
  | [] => PyStr.fstring [summary; " Most users unaffected."]
  end.

(** [x != "lit"] for an [Optional[str]]: [None] differs from any
    string. *)
Definition opt_str_ne (x : option string) (lit : string) : bool :=
  match x with Some s => negb (s =? lit)%string | None => true end.

Definition generate_impact_explanation (status : SpaceWeatherStatus.t)
  : SpaceWeatherImpact.t :=
  let what_happened_parts :=
    ([PyStr.fstring ["Kp index: "; PyFloat.format_1f (kp_current status)]]
     ++
     (match recent_flares status with
      | _ :: _ =>
          let strong_flares :=
            filter (fun f => PyStr.mem (SolarFlare.class_type f) ["M"; "X"])
                   (recent_flares status) in
          match strong_flares with
          | first :: _ =>
              [PyStr.fstring
                 [PyStr.of_int (Z.of_nat (length strong_flares));
                  " "; SolarFlare.class_type first;
                  "-class solar flare(s)"]]
          | [] => []
          end
      | [] => []
      end)
     ++
     (match active_cmes status with
      | _ :: _ =>
          [PyStr.fstring
             [PyStr.of_int (Z.of_nat (length (active_cmes status)));
              " active CME(s)"]]
      | [] => []
      end))%list in
  let what_happened := PyStr.join "; " what_happened_parts in
  let impacts :=
    ((if negb (gps_degradation_risk status =? "none")%string
      then ["GPS accuracy may be reduced for precision applications"]
      else [])
     ++
     (if negb (hf_radio_risk status =? "none")%string
      then ["HF radio communications may experience disruption"]
      else [])
     ++
     (if negb (satellite_risk status =? "none")%string
      then ["Satellite operations may experience anomalies"]
      else [])
     ++
     (if opt_str_ne (aurora_visibility status) "unlikely"
      then ["Aurora may be visible at lower latitudes than usual"]
      else []))%list in
  let who_cares :=
    ((if PyStr.mem (gps_degradation_risk status) ["moderate"; "high"]
      then ["Drone operators"; "Surveyors"; "Aviation professionals"]
      else [])
     ++
     (if PyStr.mem (hf_radio_risk status) ["moderate"; "high"]
      then ["Ham radio operators"; "Maritime communications";
            "Emergency services"]
      else [])
     ++
     (if PyStr.mem (satellite_risk status) ["moderate"; "high"]
      then ["Satellite operators"; "Space agencies"]
      else []))%list in
  let who_cares :=
    match who_cares with
    | [] => ["Space weather enthusiasts"]
    | _ :: _ => who_cares
    end in
  let guidance :=
    if (kp_current status <! 5)%pyf
    then "Continue normal operations. Monitor for updates."
    else if (kp_current status <! 7)%pyf
    then PyStr.fstring
           ["Monitor for GPS accuracy if doing precision work. ";
            "Ham radio operators may experience propagation changes."]
    else PyStr.fstring
           ["Consider delaying precision GPS work. Satellite operators ";
            "should monitor spacecraft health. Aurora photographers: ";
            "good opportunity tonight!"] in
  let severity :=
    if (kp_current status >=! 7)%pyf then HIGH
    else if (kp_current status >=! 5)%pyf then MODERATE
    else INFO in
  SpaceWeatherImpact.make what_happened impacts who_cares guidance severity.

(** What the [try] block of [_get_current_kp] comes to: an exception
    raised by the HTTP exchange, the decoding or the conversion to
    [float]; the float read from the last row of the answer; or an answer
    of another shape, which falls through both [isinstance] tests. *)
Inductive kp_exchange : Type :=
| KpRaised (e : PyException)
| KpRead (v : pyfloat)
| KpOtherShape.

Definition _get_current_kp (exchange : kp_exchange) : IO pyfloat :=
  match exchange with
  | KpRead v => ret v
  | KpRaised e =>
      logger_error "Kp fetch failed" (str_exc e) ;;
      ret (FFin 3)
  | KpOtherShape => ret (FFin 3)
  end.

(** The tail of [get_current_status], from "Determine impact levels" to
    the returned model: what the service computes once the three inputs
    are settled. *)
Definition assess (kp : pyfloat) (flares : list SolarFlare.t)
    (cmes : list CME.t) : IO SpaceWeatherStatus.t :=
  let gps_risk := _assess_gps_risk kp cmes in
  hf_risk <- _assess_hf_radio_risk flares ;;
  let sat_risk := _assess_satellite_risk kp flares cmes in
  let aurora_vis := _assess_aurora_visibility kp in
  let summary :=
    _generate_status_summary kp flares cmes gps_risk hf_risk sat_risk in
  ts <- utcnow ;;
  ret (SpaceWeatherStatus.make ts kp None flares cmes
         gps_risk hf_risk sat_risk (Some aurora_vis) summary).

(** The doubles written [5.2] and [5.3] in the source. *)
Definition double_5_2 : pyfloat :=
  FFin (5854679515581645 # 1125899906842624).
Definition double_5_3 : pyfloat :=
  FFin (5967269506265907 # 1125899906842624).

Definition _get_demo_status : IO SpaceWeatherStatus.t :=
  ts <- utcnow ;;
  flare_now <- utcnow ;;
  ret (SpaceWeatherStatus.make
         ts
         (FFin 5)
         (Some double_5_3)
         [ SolarFlare.make
             (Datetime.minus flare_now (Datetime.make 0 3 0 0))
             "M" double_5_2 (Some "AR3590") None None ]
         []
         "minor"
         "moderate"
         "minor"
         (Some "visible_high_latitudes")
         (PyStr.fstring
            ["Status: Active geomagnetic conditions (Kp 5.0). ";
             "Minor GPS degradation possible; most users unaffected."])).

(** [get_current_status].  The three coroutines are awaited together and
    each slot of the gathered triple is either a value or the exception
    the coroutine raised; [DEMO_MODE] is the configuration flag. *)
Definition get_current_status (DEMO_MODE : bool)
    (kp : gathered pyfloat)
    (flares : gathered (list SolarFlare.t))
    (cmes : gathered (list CME.t)) : IO SpaceWeatherStatus.t :=
  if DEMO_MODE then _get_demo_status
  else
    kp <- match kp with
          | Raised e =>
              logger_error "Failed to fetch Kp" (str_exc e) ;;
              ret (FFin 3)
          | Returned v => ret v
          end ;;
    flares <- match flares with
              | Raised e =>
                  logger_error "Failed to fetch flares" (str_exc e) ;;
                  ret []
              | Returned v => ret v
              end ;;
    cmes <- match cmes with
            | Raised e =>
                logger_error "Failed to fetch CMEs" (str_exc e) ;;
                ret []
            | Returned v => ret v
            end ;;
    assess kp flares cmes.

(** The [try] block of [_get_current_kp], from the outcome of the HTTP
    exchange and decoding on: the answer must be a list of more than one
    row, its last row a list of at least two cells, and the second cell
    is converted by [float]. *)
Definition kp_try_block (float_ : json -> PyException + pyfloat)
    (answer : PyException + json) : kp_exchange :=
  match answer with
  | inl e => KpRaised e
  | inr (JList data) =>
      if (1 <? length data)%nat then
        match last data JNull with
        | JList latest =>
            if (2 <=? length latest)%nat then
              match float_ (nth 1 latest JNull) with
              | inr v => KpRead v
              | inl e => KpRaised e
              end
            else KpOtherShape
        | _ => KpOtherShape
        end
      else KpOtherShape
  | inr _ => KpOtherShape
  end.

(** [_get_recent_flares] and [_get_active_cmes]: both return the empty
    list, whatever [hours] is. *)
Definition _get_recent_flares (hours : Z) : IO (list SolarFlare.t) := ret [].

Definition _get_active_cmes : IO (list CME.t) := ret [].

(** [get_current_status] outside demo mode, with the three coroutines of
    the service awaited: none of them lets an exception out, so every
    gathered slot holds a value. *)
Definition get_current_status_awaiting
    (float_ : json -> PyException + pyfloat)
    (answer : PyException + json) : IO SpaceWeatherStatus.t :=
  kp <- _get_current_kp (kp_try_block float_ answer) ;;
  flares <- _get_recent_flares 24 ;;
  cmes <- _get_active_cmes ;;
  get_current_status false (Returned kp) (Returned flares) (Returned cmes).

End SpaceWeatherService.

(* ===================================================================== *)
(** ** [SatelliteService] *)
(* ===================================================================== *)

Module Location.
Record t : Type := make
  { latitude : pyfloat;
    longitude : pyfloat;
    altitude : pyfloat;
    name : option string }.

Definition latitude_field : FieldInfo := {| ge := Some (-90); le := Some 90 |}.
Definition longitude_field : FieldInfo :=
  {| ge := Some (-180); le := Some 180 |}.

Definition create (lat lon alt : pyfloat) (nm : option string)
  : ValidationError + t :=
  if negb (field_ok latitude_field lat)
  then inl (validation_error "Location" "latitude")
  else if negb (field_ok longitude_field lon)
  then inl (validation_error "Location" "longitude")
  else inr (make lat lon alt nm).
End Location.

(** What a decoded JSON object holds under a key the code reads with
    [.get]: no such key, the JSON [null] (Python's [None]), or a value. *)
Inductive entry (A : Type) : Type :=
| key_missing
| key_null
| key_value (v : A).
Arguments key_missing {A}.
Arguments key_null {A}.
Arguments key_value {A} v.

(** [d.get(key)]: [None] for a missing key and for a null alike. *)
Definition entry_get {A : Type} (e : entry A) : option A :=
  match e with
  | key_value v => Some v
  | key_missing | key_null => None
  end.

(** [d.get(key, default)]: the default stands in for a missing key only;
    a null is handed on as [None]. *)
Definition entry_get_default {A : Type} (e : entry A) (default : A)
  : option A :=
  match e with
  | key_missing => Some default
  | key_null => None
  | key_value v => Some v
  end.

(** One element of the ["passes"] array of the N2YO visual-passes answer,
    after JSON decoding.  The keys read by subscript hold numbers; [mag]
    is read with [.get]. *)
Module PassData.
Record t : Type := make
  { startUTC : Z;
    maxUTC : Z;
    endUTC : Z;
    maxEl : pyfloat;
    startAz : pyfloat;
    maxAz : pyfloat;
    endAz : pyfloat;
    mag : entry pyfloat;
    duration : Z }.
End PassData.

(** The decoded answer: [data["info"]] and the ["passes"] key, read with
    [.get]. *)
Module PassesData.
Record t : Type := make
  { satname : string;
    satid : Z;
    passes : entry (list PassData.t) }.
End PassesData.

(** [class OrbitType(str, Enum)]. *)
Inductive OrbitType : Type := LEO | MEO | GEO | HEO.

Module SatelliteProfile.
Record t : Type := make
  { satellite_id : Z;
    name : string;
    norad_id : string;
    purpose : string;
    orbit_type : OrbitType;
    altitude_km : pyfloat;
    speed_kmh : pyfloat;
    launch_date : option datetime;
    country : option string;
    why_care : string;
    recent_changes : option string }.
End SatelliteProfile.

(** What the visual-passes request of [_get_satellite_passes] is made of;
    the N2YO service is an external collaborator, taken as a function
    from the request to the outcome of the exchange: an exception, or the
    decoded answer. *)
Module N2YO.
Record request : Type := make
  { norad_id : string;
    location : Location.t;
    days : Z;
    min_elevation : pyfloat }.

Definition service : Type := request -> PyException + PassesData.t.
End N2YO.

(** What can leave [_get_satellite_passes]: an exception of the exchange;
    an exception raised in the loop over the decoded answer; the
    [ValueError], [OverflowError] or [OSError] of
    [datetime.fromtimestamp(t)]; or a validation error of the model. *)
Inductive Failure : Type :=
| exchange_failed (e : PyException)
| loop_raised (e : PyException)
| timestamp_rejected (t : Z)
| model_invalid (e : ValidationError).

(** One record written through the logger of [satellite_service.py];
    [failure] is the exception whose text is logged under [error]. *)
Record SatLogEvent : Type := mk_sat_event
  { sat_event : string; satellite : string; failure : Failure }.

(** The world of the satellite service: the world of the clock, and the
    records of its own logger. *)
Record SatWorld : Type := mk_sat_world
  { base : World; sat_log : list SatLogEvent }.

Definition SatIO : Type -> Type := state SatWorld.

Definition sat_run {A : Type} (c : SatIO A) (sw : SatWorld) : A * SatWorld :=
  runState c sw.

(** A computation on the clock's world, run inside the satellite
    service. *)
Definition lift_io {A : Type} (c : IO A) : SatIO A :=
  sw <- get ;;
  put {| base := snd (run c (base sw)); sat_log := sat_log sw |} ;;
  ret (fst (run c (base sw))).

Definition sat_logger_error (ev sat : string) (e : Failure) : SatIO unit :=
  sw <- get ;;
  put {| base := base sw;
         sat_log := (sat_log sw
                     ++ [ {| sat_event := ev; satellite := sat;
                             failure := e |} ])%list |}.

(** [d.get(key, default)] on a key that may be missing. *)
Definition dict_get {A : Type} (entry : option A) (default : A) : A :=
  match entry with Some v => v | None => default end.

Module SatelliteService.

Import PassData.

(** 1970-01-01T00:00:00 on the time line of [datetime]. *)
Definition unix_epoch : datetime := 719162 * Datetime.us_per_day.

(** [datetime.max], 9999-12-31T23:59:59.999999; [datetime.min] is 0. *)
Definition datetime_max : datetime := 3652059 * Datetime.us_per_day - 1.

(** [datetime.fromtimestamp(t)]: local time, so it depends on the host.
    [utcoffset t] is the offset of the host's zone at [t] (seconds east
    of UTC), or [None] where the platform's [localtime] gives up on [t];
    the call raises there, and where the local time is no [datetime]
    (before year 1 or after year 9999). *)
Definition fromtimestamp (utcoffset : Z -> option Z) (t : Z)
  : Failure + datetime :=
  match utcoffset t with
  | None => inl (timestamp_rejected t)
  | Some offset =>
      let local := unix_epoch + (t + offset) * Datetime.us_per_second in
      if (0 <=? local) && (local <=? datetime_max)
      then inr local
      else inl (timestamp_rejected t)
  end.

(** The [TypeError] of [None < 0] and of [for ... in None]. *)
Definition none_not_ordered : PyException :=
  Exception "'<' not supported between instances of 'NoneType' and 'int'".
Definition none_not_iterable : PyException :=
  Exception "'NoneType' object is not iterable".

(** The test computed at the head of the loop of
    [_get_satellite_passes]: [or] does not look at the magnitude of a
    pass above 40 degrees; below, a null magnitude cannot be compared. *)
Definition worth_watching (pass_data : PassData.t) : PyException + bool :=
  if (maxEl pass_data >! 40)%pyf then inr true
  else match entry_get_default (mag pass_data) (PyFloat.of_int 5) with
       | Some m => inr (m <! 0)%pyf
       | None => inl none_not_ordered
       end.

Definition _generate_commentary (pass_data : PassData.t)
    (worth_watching : bool) : string :=
  let max_el := maxEl pass_data in
  let duration := duration pass_data in
  if negb worth_watching then "Low pass, may not be easily visible."
  else
    let visibility :=
      if (max_el >! 70)%pyf then "Overhead pass! Excellent viewing."
      else if (max_el >! 50)%pyf then "High pass, very good viewing."
      else if (max_el >! 30)%pyf then "Good pass, should be easy to spot."
      else "Moderate pass, clear sky recommended." in
    let time_note :=
      if duration <? 180 then "Quick pass"
      else if duration <? 360 then "Standard duration"
      else "Long pass" in
    PyStr.fstring [visibility; " "; time_note; " (";
                   PyStr.of_int duration; "s)."].

(** The body of the loop: one [SatellitePass] out of one [pass_data].
    The test comes first, then the arguments of the constructor in the
    order they are written, then the validation of the model. *)
Definition build_pass (utcoffset : Z -> option Z) (data : PassesData.t)
    (pass_data : PassData.t) : Failure + SatellitePass.t :=
  match worth_watching pass_data with
  | inl e => inl (loop_raised e)
  | inr worth =>
      match fromtimestamp utcoffset (startUTC pass_data) with
      | inl f => inl f
      | inr start =>
          match fromtimestamp utcoffset (maxUTC pass_data) with
          | inl f => inl f
          | inr peak =>
              match fromtimestamp utcoffset (endUTC pass_data) with
              | inl f => inl f
              | inr finish =>
                  match
                    SatellitePass.create
                      (PassesData.satname data)
                      (PassesData.satid data)
                      start peak finish
                      (maxEl pass_data)
                      (startAz pass_data)
                      (maxAz pass_data)
                      (endAz pass_data)
                      (entry_get (mag pass_data))
                      (duration pass_data)
                      worth
                      (Some (_generate_commentary pass_data worth))
                  with
                  | inl e => inl (model_invalid e)
                  | inr sat_pass => inr sat_pass
                  end
              end
          end
      end
  end.

Fixpoint build_passes (utcoffset : Z -> option Z) (data : PassesData.t)
    (todo : list PassData.t) : Failure + list SatellitePass.t :=
  match todo with
  | [] => inr []
  | pass_data :: rest =>
      match build_pass utcoffset data pass_data with
      | inl err => inl err
      | inr sat_pass =>
          match build_passes utcoffset data rest with
          | inl err => inl err
          | inr tl => inr (sat_pass :: tl)
          end
      end
  end.

(** [_get_satellite_passes], from the decoded answer on; whatever the
    loop raises leaves the function, and with it the passes built so
    far. *)
Definition _get_satellite_passes (utcoffset : Z -> option Z)
    (data : PassesData.t) : Failure + list SatellitePass.t :=
  match entry_get_default (PassesData.passes data) [] with
  | None => inl (loop_raised none_not_iterable)
  | Some todo => build_passes utcoffset data todo
  end.

(** The doubles written [-3.5] and [-2.8] in the source. *)
Definition double_m3_5 : pyfloat := FFin (-7 # 2).
Definition double_m2_8 : pyfloat :=
  FFin (-6305039478318694 # 2251799813685248).

(** [now.replace(hour=19, minute=41, second=0, microsecond=0)]. *)
Definition replace_19_41 (now : datetime) : datetime :=
  (now / Datetime.us_per_day) * Datetime.us_per_day
  + (19 * 3600 + 41 * 60) * Datetime.us_per_second.

Definition _get_demo_passes (location : Location.t)
  : IO (ValidationError + list SatellitePass.t) :=
  now <- utcnow ;;
  let tonight_7pm := replace_19_41 now in
  let tonight_7pm :=
    if tonight_7pm <? now
    then Datetime.plus tonight_7pm (Datetime.make 1 0 0 0)
    else tonight_7pm in
  ret (match
         SatellitePass.create
           "ISS (ZARYA)" 25544
           tonight_7pm
           (Datetime.plus tonight_7pm (Datetime.make 0 0 3 0))
           (Datetime.plus tonight_7pm (Datetime.make 0 0 6 0))
           (FFin 63) (PyFloat.of_int 225) (PyFloat.of_int 180)
           (PyFloat.of_int 45) (Some double_m3_5) 360 true
           (Some "High pass, very good viewing. Standard duration (360s).")
       with
       | inl err => inl err
       | inr first =>
           match
             SatellitePass.create
               "ISS (ZARYA)" 25544
               (Datetime.plus tonight_7pm (Datetime.make 0 13 0 0))
               (Datetime.plus tonight_7pm (Datetime.make 0 13 2 0))
               (Datetime.plus tonight_7pm (Datetime.make 0 13 5 0))
               (FFin 45) (PyFloat.of_int 270) (PyFloat.of_int 180)
               (PyFloat.of_int 90) (Some double_m2_8) 300 true
               (Some "Good pass, should be easy to spot. Standard duration (300s).")
           with
           | inl err => inl err
           | inr second => inr [first; second]
           end
       end).

(** The class attribute [SATELLITES], in the order the dict is
    written: key, NORAD id, name. *)
Definition SATELLITES : list (string * (string * string)) :=
  [ ("ISS", ("25544", "ISS (ZARYA)"));
    ("HUBBLE", ("20580", "HST"));
    ("TIANGONG", ("48274", "TIANHE")) ].

(** [time_window_hours // 24 or 1]. *)
Definition days_of_window (time_window_hours : Z) : Z :=
  let whole := time_window_hours / 24 in
  if whole =? 0 then 1 else whole.

(** [_get_satellite_passes] with its exchange: the request, then the
    loop over the decoded answer. *)
Definition _get_satellite_passes_of (n2yo : N2YO.service)
    (utcoffset : Z -> option Z) (norad_id : string) (location : Location.t)
    (days : Z) (min_elevation : pyfloat)
  : Failure + list SatellitePass.t :=
  match n2yo (N2YO.make norad_id location days min_elevation) with
  | inl e => inl (exchange_failed e)
  | inr data => _get_satellite_passes utcoffset data
  end.

(** The loop of [get_overhead_satellites] over the catalogue: the passes
    of each satellite are appended in turn; an exception is logged and
    the satellite skipped. *)
Fixpoint overhead_loop (n2yo : N2YO.service) (utcoffset : Z -> option Z)
    (location : Location.t) (days : Z) (min_elevation : pyfloat)
    (catalogue : list (string * (string * string)))
  : SatIO (list SatellitePass.t) :=
  match catalogue with
  | [] => ret []
  | (sat_key, (norad_id, _)) :: rest =>
      match _get_satellite_passes_of n2yo utcoffset norad_id location days
                                     min_elevation with
      | inr sat_passes =>
          tl <- overhead_loop n2yo utcoffset location days min_elevation rest ;;
          ret (sat_passes ++ tl)%list
      | inl e =>
          sat_logger_error "Failed to get passes" sat_key e ;;
          overhead_loop n2yo utcoffset location days min_elevation rest
      end
  end.

(** [passes.sort(key=lambda p: p.start_time)]: the sort of Python is
    stable, as is this insertion sort. *)
Fixpoint insert_by_start (p : SatellitePass.t) (sorted : list SatellitePass.t)
  : list SatellitePass.t :=
  match sorted with
  | [] => [p]
  | q :: rest =>
      if SatellitePass.start_time p <=? SatellitePass.start_time q
      then p :: q :: rest
      else q :: insert_by_start p rest
  end.

Definition sort_by_start (l : list SatellitePass.t) : list SatellitePass.t :=
  fold_right insert_by_start [] l.

Definition get_overhead_satellites (DEMO_MODE : bool) (n2yo : N2YO.service)
    (utcoffset : Z -> option Z) (location : Location.t) (time_window_hours : Z)
    (min_elevation : pyfloat) : SatIO (Failure + list SatellitePass.t) :=
  if DEMO_MODE then
    demo <- lift_io (_get_demo_passes location) ;;
    ret (match demo with
         | inl e => inl (model_invalid e)
         | inr demo_passes => inr demo_passes
         end)
  else
    found <- overhead_loop n2yo utcoffset location
                           (days_of_window time_window_hours) min_elevation
                           SATELLITES ;;
    ret (inr (sort_by_start found)).

(** [iss_passes[0] if iss_passes else None]. *)
Definition get_next_iss_pass (DEMO_MODE : bool) (n2yo : N2YO.service)
    (utcoffset : Z -> option Z) (location : Location.t) (min_elevation : pyfloat)
  : SatIO (Failure + option SatellitePass.t) :=
  overhead <- get_overhead_satellites DEMO_MODE n2yo utcoffset location 48
                                      min_elevation ;;
  ret (match overhead with
       | inl e => inl e
       | inr found =>
           inr (hd_error
                  (filter (fun p =>
                             PyStr.contains "ISS" (SatellitePass.satellite_name p))
                          found))
       end).

(** The search of [get_satellite_profile] through the catalogue: the key
    of the first entry whose key or name occurs in the query, case
    ignored. *)
Fixpoint find_satellite (catalogue : list (string * (string * string)))
    (satellite_name : string) : option string :=
  match catalogue with
  | [] => None
  | (key, (_, name)) :: rest =>
      if PyStr.contains (PyStr.lower key) (PyStr.lower satellite_name)
         || PyStr.contains (PyStr.lower name) (PyStr.lower satellite_name)
      then Some key
      else find_satellite rest satellite_name
  end.

Definition profiles : list (string * SatelliteProfile.t) :=
  [ ("ISS",
     SatelliteProfile.make
       25544 "International Space Station" "25544"
       "Research laboratory and human spaceflight" LEO
       (PyFloat.of_int 408) (PyFloat.of_int 27600) None
       (Some "International")
       (PyStr.fstring
          ["The ISS is a continuously inhabited space station where ";
           "astronauts conduct scientific research in microgravity. ";
           "It's the brightest satellite and often visible to the naked eye."])
       None);
    ("HUBBLE",
     SatelliteProfile.make
       20580 "Hubble Space Telescope" "20580"
       "Space telescope for astronomical observations" LEO
       (PyFloat.of_int 547) (PyFloat.of_int 27300) None
       (Some "USA/ESA")
       (PyStr.fstring
          ["Hubble has revolutionized astronomy with stunning images ";
           "and discoveries about the universe. Operating since 1990."])
       None);
    ("TIANGONG",
     SatelliteProfile.make
       48274 "Tiangong Space Station" "48274"
       "Chinese space station" LEO
       (PyFloat.of_int 390) (PyFloat.of_int 27500) None
       (Some "China")
       (PyStr.fstring
          ["China's first long-term space station, continuously inhabited ";
           "since 2022. Conducting scientific research and technology demos."])
       None) ].

(** [profiles.get(key)]. *)
Fixpoint profile_of (key : string)
    (table : list (string * SatelliteProfile.t)) : option SatelliteProfile.t :=
  match table with
  | [] => None
  | (k, profile) :: rest =>
      if (k =? key)%string then Some profile else profile_of key rest
  end.

Definition get_satellite_profile (satellite_name : string)
  : option SatelliteProfile.t :=
  match find_satellite SATELLITES satellite_name with
  | None => None
  | Some key => profile_of key profiles
  end.

End SatelliteService.

(* ===================================================================== *)
(** ** The classifications as the specification words them *)
(* ===================================================================== *)

Module Spec.

Definition ge (x : pyfloat) (n : Z) : Prop := (x >=! n)%pyf = true.
Definition gt (x : pyfloat) (n : Z) : Prop := (x >! n)%pyf = true.

Definition is_class (letter : string) (f : SolarFlare.t) : Prop :=
  SolarFlare.class_type f = letter.

Definition some_earth_directed (cmes : list CME.t) : Prop :=
  exists c, In c cmes /\ CME.earth_directed c = true.

(** GPS risk: the four bands, first match wins. *)
Inductive gps_risk (kp : pyfloat) (cmes : list CME.t) : string -> Prop :=
| gps_high :
    ge kp 7 \/ some_earth_directed cmes ->
    gps_risk kp cmes "high"
| gps_moderate :
    ~ (ge kp 7 \/ some_earth_directed cmes) -> ge kp 5 ->
    gps_risk kp cmes "moderate"
| gps_minor :
    ~ (ge kp 7 \/ some_earth_directed cmes) -> ~ ge kp 5 -> ge kp 4 ->
    gps_risk kp cmes "minor"
| gps_none :
    ~ (ge kp 7 \/ some_earth_directed cmes) -> ~ ge kp 5 -> ~ ge kp 4 ->
    gps_risk kp cmes "none".

Definition some_big_x (flares : list SolarFlare.t) : Prop :=
  exists f, In f flares /\ is_class "X" f /\ gt (SolarFlare.scale f) 5.

Definition some_x (flares : list SolarFlare.t) : Prop :=
  exists f, In f flares /\ is_class "X" f.

(** Satellite-operations risk: top-down, first match wins. *)
Inductive satellite_risk (kp : pyfloat) (flares : list SolarFlare.t)
  : string -> Prop :=
| sat_high :
    ge kp 8 \/ some_big_x flares ->
    satellite_risk kp flares "high"
| sat_moderate :
    ~ (ge kp 8 \/ some_big_x flares) -> ge kp 6 \/ some_x flares ->
    satellite_risk kp flares "moderate"
| sat_minor :
    ~ (ge kp 8 \/ some_big_x flares) -> ~ (ge kp 6 \/ some_x flares) ->
    ge kp 5 ->
    satellite_risk kp flares "minor"
| sat_none :
    ~ (ge kp 8 \/ some_big_x flares) -> ~ (ge kp 6 \/ some_x flares) ->
    ~ ge kp 5 ->
    satellite_risk kp flares "none".

(** HF-radio risk with the window the specification describes: the
    whole elapsed time between the flare and the evaluation time [now]
    is under 3600 seconds. *)
Definition recent_strong (now : datetime) (flares : list SolarFlare.t)
  : list SolarFlare.t :=
  filter (fun f =>
            PyStr.mem (SolarFlare.class_type f) ["M"; "X"]
            && Datetime.total_seconds_lt
                 (Datetime.sub now (SolarFlare.timestamp f)) 3600)
         flares.

Definition hf_radio_risk (now : datetime) (flares : list SolarFlare.t)
  : string :=
  match flares with
  | [] => "none"
  | _ :: _ =>
      let strong := recent_strong now flares in
      if existsb (fun f => SolarFlare.class_type f =? "X")%string strong
      then "high"
      else match strong with
           | _ :: _ => "moderate"
           | [] => "minor"
           end
  end.

(** The worth-watching rule. *)
Definition bright (magnitude : option pyfloat) : Prop :=
  exists m, magnitude = Some m /\ (m <! 0)%pyf = true.

Definition worth_watching (max_elevation : pyfloat)
    (magnitude : option pyfloat) : Prop :=
  gt max_elevation 40 \/ bright magnitude.

(** The two clauses of the commentary. *)
Inductive visibility_clause (el : pyfloat) : string -> Prop :=
| vis_overhead :
    gt el 70 -> visibility_clause el "Overhead pass! Excellent viewing."
| vis_high :
    ~ gt el 70 -> gt el 50 ->
    visibility_clause el "High pass, very good viewing."
| vis_good :
    ~ gt el 70 -> ~ gt el 50 -> gt el 30 ->
    visibility_clause el "Good pass, should be easy to spot."
| vis_moderate :
    ~ gt el 70 -> ~ gt el 50 -> ~ gt el 30 ->
    visibility_clause el "Moderate pass, clear sky recommended.".

Inductive duration_clause (d : Z) : string -> Prop :=
| dur_quick : d < 180 -> duration_clause d "Quick pass"
| dur_standard : 180 <= d < 360 -> duration_clause d "Standard duration"
| dur_long : 360 <= d -> duration_clause d "Long pass".

(** Severity orders. *)
Definition risk_rank (r : string) : option nat :=
  if (r =? "none")%string then Some 0%nat
  else if (r =? "minor")%string then Some 1%nat
  else if (r =? "moderate")%string then Some 2%nat
  else if (r =? "high")%string then Some 3%nat
  else None.

Definition aurora_rank (a : string) : option nat :=
  if (a =? "unlikely")%string then Some 0%nat
  else if (a =? "visible_polar_regions")%string then Some 1%nat
  else if (a =? "visible_high_latitudes")%string then Some 2%nat
  else if (a =? "visible_mid_latitudes")%string then Some 3%nat
  else None.

Definition severity_rank (s : AlertSeverity) : option nat :=
  match s with
  | INFO => Some 0%nat
  | MODERATE => Some 1%nat
  | HIGH => Some 2%nat
  | SEVERE => Some 3%nat
  end.

(** [a] is at most as severe as [b]; both must be levels of the scale. *)
Definition le_by {A : Type} (rank : A -> option nat) (a b : A) : Prop :=
  match rank a, rank b with
  | Some m, Some n => (m <= n)%nat
  | _, _ => False
  end.

End Spec.

(* ===================================================================== *)
(** ** Sample inputs *)
(* ===================================================================== *)

Module Fixture.

(** 2024-01-01T12:00:00. *)
Definition noon : datetime :=
  738885 * Datetime.us_per_day + 12 * 3600 * Datetime.us_per_second.

(** A world whose clock shows [t] at the first reading and moves on by
    [step] microseconds at each later one. *)
Definition ticking (t step : Z) : World :=
  {| clock := fun n => t + Z.of_nat n * step; reads := 0; log := [] |}.

(** A world visited twice: the first [n] readings are taken around [t]
    (a millisecond apart), the later ones [gap] microseconds after. *)
Definition two_visits (t gap : Z) (n : nat) : World :=
  {| clock := fun i => if (i <? n)%nat
                       then t + Z.of_nat i * 1000
                       else t + gap + Z.of_nat i * 1000;
     reads := 0; log := [] |}.

Definition hours (h : Z) : Z := h * 3600 * Datetime.us_per_second.
Definition minutes (m : Z) : Z := m * 60 * Datetime.us_per_second.

Definition flare (letter : string) (scale : pyfloat) (ts : datetime)
  : SolarFlare.t :=
  SolarFlare.make ts letter scale None None None.

Definition directed_cme (ts : datetime) : CME.t :=
  CME.make ts (PyFloat.of_int 800) true None None.

(** The entry of a record that has the key exactly when a value is
    given. *)
Definition optional_key {A : Type} (v : option A) : entry A :=
  match v with Some x => key_value x | None => key_missing end.

(** A host on UTC whose [localtime] reaches every timestamp. *)
Definition utc : Z -> option Z := fun _ => Some 0.

(** A pass that rises at 2024-01-01T12:00:00Z and lasts [dur] seconds;
    the record has a ["mag"] key exactly when [mag] is given. *)
Definition pass_data (el : pyfloat) (dur : Z) (mag : option pyfloat)
  : PassData.t :=
  PassData.make 1704110400 (1704110400 + dur / 2) (1704110400 + dur)
                el (PyFloat.of_int 225) (PyFloat.of_int 180)
                (PyFloat.of_int 45) (optional_key mag) dur.

(** A record whose set time lies five minutes before its rise time. *)
Definition backwards_pass : PassData.t :=
  PassData.make 1704110400 1704110250 1704110100
                (PyFloat.of_int 75) (PyFloat.of_int 225) (PyFloat.of_int 180)
                (PyFloat.of_int 45) key_missing 300.

Definition iss (passes : list PassData.t) : PassesData.t :=
  PassesData.make "SPACE STATION" 25544 (key_value passes).

Definition greenwich : Location.t :=
  Location.make (FFin (103 # 2)) (PyFloat.of_int 0) (PyFloat.of_int 0) None.

End Fixture.

(** What the aggregator is left with for one gathered slot, and the log
    records one failed slot accounts for. *)
Definition settled {A : Type} (slot : gathered A) (default : A) : A :=
  match slot with Returned v => v | Raised _ => default end.

Definition failure_events {A : Type} (what : string) (slot : gathered A)
  : list LogEvent :=
  match slot with
  | Returned _ => []
  | Raised e => [ {| level := "error"; event := what; error := str_exc e |} ]
  end.



(** Two calls of the assessment, one after the other, on the same inputs. *)
Definition assess_twice (kp : pyfloat) (flares : list SolarFlare.t)
    (cmes : list CME.t) : IO (SpaceWeatherStatus.t * SpaceWeatherStatus.t) :=
  first <- SpaceWeatherService.assess kp flares cmes ;;
  second <- SpaceWeatherService.assess kp flares cmes ;;
  ret (first, second).

(** The geometry a [SatellitePass] records, as the [pass_data] the
    commentary and the worth-watching test read (with a ["mag"] key
    exactly when the pass has a magnitude); the three UTC stamps play no
    part in either. *)
Definition geometry_of (p : SatellitePass.t) : PassData.t :=
  PassData.make 0 0 0
                (SatellitePass.max_elevation p)
                (SatellitePass.start_azimuth p)
                (SatellitePass.max_azimuth p)
                (SatellitePass.end_azimuth p)
                (Fixture.optional_key (SatellitePass.magnitude p))
                (SatellitePass.duration_seconds p).

(** The number of wall-clock readings the HF-radio assessment makes. *)
Definition strong_count (flares : list SolarFlare.t) : nat :=
  length (filter (fun f => PyStr.mem (SolarFlare.class_type f) ["M"; "X"])
                 flares).

(** Comparison of two levels taken on different four-step scales. *)
Definition rank_le (a b : option nat) : Prop :=
  match a, b with
  | Some m, Some n => (m <= n)%nat
  | _, _ => False
  end.

(* ===================================================================== *)
(** ** [SpaceAgentService] *)
(* ===================================================================== *)

(** [class ExplanationMode(str, Enum)]. *)
Inductive ExplanationMode : Type := QUICK | ELI10 | STEM | SCIFI.

(** One entry of [KB_SNIPPETS]. *)
Module KbSnippet.
Record t : Type := make { content : string; source : string }.
End KbSnippet.

(** One element of [sources]: the dict with keys [title] and [snippet]. *)
Module SourceNote.
Record t : Type := make { title : string; snippet : string }.
End SourceNote.

Module ExplanationRequest.
Record t : Type := make
  { query : string;
    mode : ExplanationMode;
    include_citations : bool;
    context : option json }.
End ExplanationRequest.

Module ExplanationResponse.
Record t : Type := make
  { query : string;
    mode : ExplanationMode;
    explanation : string;
    citations : list string;
    confidence : pyfloat;
    sources : list SourceNote.t }.

Definition confidence_field : FieldInfo := {| ge := Some 0; le := Some 1 |}.

(** [ExplanationResponse(...)]: the only declared constraint is on
    [confidence]. *)
Definition create (q : string) (m : ExplanationMode) (text : string)
    (cites : list string) (conf : pyfloat) (notes : list SourceNote.t)
  : ValidationError + t :=
  if field_ok confidence_field conf
  then inr (make q m text cites conf notes)
  else inl (validation_error "ExplanationResponse" "confidence").
End ExplanationResponse.

(** The Claude client, an external collaborator: from the model name, the
    token limit, the system prompt and the user message to the text of
    the first content block, or the exception the call (or the reading of
    the block) raised. *)
Definition claude_client : Type :=
  string -> Z -> string -> string -> PyException + string.

Module SpaceAgentService.

Definition newline : string := String (ascii_of_nat 10) EmptyString.

(** [KB_SNIPPETS["kp_index"]]. *)
Definition kb_kp_index : KbSnippet.t :=
  KbSnippet.make
    (PyStr.fstring
      [ "The Kp index is a geomagnetic activity index ranging from 0-9.";
        " It measures disturbances in Earth's magnetic field caused by ";
        "solar activity. Values 0-4 are quiet, 5-6 are active/minor sto";
        "rm, 7-8 are moderate/strong storm, 9 is severe storm. Higher K";
        "p can affect GPS, radio, satellites, and cause auroras." ])
    "NOAA Space Weather Prediction Center".

(** [KB_SNIPPETS["cme"]]. *)
Definition kb_cme : KbSnippet.t :=
  KbSnippet.make
    (PyStr.fstring
      [ "A Coronal Mass Ejection (CME) is a massive burst of solar wind";
        " and magnetic fields rising above the solar corona or being re";
        "leased into space. CMEs can eject billions of tons of coronal ";
        "material at speeds of 100-3000 km/s. Earth-directed CMEs can t";
        "rigger geomagnetic storms, affecting satellites, communication";
        "s, and power grids." ])
    "NASA Space Weather Guide".

(** [KB_SNIPPETS["solar_flare"]]. *)
Definition kb_solar_flare : KbSnippet.t :=
  KbSnippet.make
    (PyStr.fstring
      [ "Solar flares are intense bursts of radiation from the release ";
        "of magnetic energy. They're classified by X-ray brightness: C ";
        "(weak), M (medium), X (strong). Each class is 10x stronger tha";
        "n the previous. Flares can disrupt radio communications and na";
        "vigation systems on the sunlit side of Earth." ])
    "NASA Solar Dynamics Observatory".

(** [KB_SNIPPETS["leo"]]. *)
Definition kb_leo : KbSnippet.t :=
  KbSnippet.make
    (PyStr.fstring
      [ "Low Earth Orbit (LEO) is between 160-2000 km altitude. LEO sat";
        "ellites orbit Earth in ~90 minutes. Most human spaceflight occ";
        "urs here (ISS at ~400km). LEO satellites experience more atmos";
        "pheric drag and require periodic reboosts." ])
    "ESA Space Environment Statistics".

Definition prompt_quick : string :=
  PyStr.fstring
    [ "Provide a concise, practical explanation in 5-8 lines. Focus o";
      "n what matters to regular people." ].

Definition prompt_eli10 : string :=
  PyStr.fstring
    [ "Explain using simple language and metaphors a 10-year-old woul";
      "d understand. Be engaging and fun but accurate." ].

Definition prompt_stem : string :=
  PyStr.fstring
    [ "Provide a technical explanation with correct terminology. Incl";
      "ude relevant numbers, formulas, and physics. Suitable for stud";
      "ents/professionals." ].

Definition prompt_scifi : string :=
  PyStr.fstring
    [ "Explain with narrative flair and vivid imagery, like a science";
      " fiction story. Keep it accurate but make it exciting and imme";
      "rsive." ].

(** [MODE_PROMPTS.get(mode)]: every mode has an entry. *)
Definition MODE_PROMPTS (mode : ExplanationMode) : option string :=
  match mode with
  | QUICK => Some prompt_quick
  | ELI10 => Some prompt_eli10
  | STEM => Some prompt_stem
  | SCIFI => Some prompt_scifi
  end.

Definition model_name : string := "claude-sonnet-4-20250514".

Definition _build_system_prompt (mode : ExplanationMode) : string :=
  let base_prompt :=
    PyStr.fstring
      [ "You are a space weather and satellite tracking expert. ";
        "You explain space phenomena clearly and accurately. ";
        "When live context is provided, incorporate it naturally into your response. " ] in
  let mode_specific := dict_get (MODE_PROMPTS mode) prompt_quick in
  (base_prompt ++ mode_specific)%string.

Definition _search_kb (query : string) : list KbSnippet.t :=
  let query_lower := PyStr.lower query in
  ((if PyStr.any_in ["kp"; "geomagnetic"; "magnetic"] query_lower
    then [kb_kp_index] else [])
   ++
   (if PyStr.any_in ["cme"; "coronal"; "mass ejection"] query_lower
    then [kb_cme] else [])
   ++
   (if PyStr.any_in ["flare"; "solar flare"; "x-class"; "m-class"] query_lower
    then [kb_solar_flare] else [])
   ++
   (if PyStr.any_in ["leo"; "orbit"; "altitude"] query_lower
    then [kb_leo] else []))%list.

Definition _fallback_response (query : string) (context : list string)
  : string :=
  match context with
  | _ :: _ =>
      PyStr.fstring
        [ "Based on current conditions:"; newline;
          PyStr.join newline context;
          newline; newline; "Regarding your question about '"; query; "': ";
          "I'd need more specific data to give you a detailed answer. ";
          "Please check the space weather dashboard for real-time information." ]
  | [] =>
      PyStr.fstring
        [ "I'm currently unable to provide a detailed response. ";
          "Please check the space weather and satellite tracking dashboards ";
          "for current information." ]
  end.

Definition _fallback_explanation (query : string) (mode : ExplanationMode)
  : string :=
  match _search_kb query with
  | first :: _ => KbSnippet.content first
  | [] =>
      PyStr.fstring
        [ "I don't have detailed information about this topic in my knowledge base. ";
          "Please refer to NASA, NOAA, or ESA resources for authoritative information." ]
  end.

(** The doubles written [0.7], [0.9], [0.6] and [0.5] in the source. *)
Definition double_0_7 : pyfloat :=
  FFin (3152519739159347 # 4503599627370496).
Definition double_0_9 : pyfloat :=
  FFin (8106479329266893 # 9007199254740992).
Definition double_0_6 : pyfloat :=
  FFin (5404319552844595 # 9007199254740992).
Definition double_0_5 : pyfloat := FFin (1 # 2).

(** The knowledge handed to the model and the notes returned with it:
    the loop of [explain] over [kb_results[:3]]. *)
Definition knowledge_lines (hits : list KbSnippet.t) : string :=
  PyStr.fstring
    (map (fun result =>
            PyStr.fstring [ "- "; KbSnippet.content result; newline;
                            "  Source: "; KbSnippet.source result; newline ])
         (firstn 3 hits)).

Definition source_notes (hits : list KbSnippet.t) : list SourceNote.t :=
  map (fun result =>
         SourceNote.make
           (KbSnippet.source result)
           (PyStr.slice_to 100 (KbSnippet.content result) ++ "...")%string)
      (firstn 3 hits).

(** [explain].  [client] is [None] when no API key is configured. *)
Definition explain (client : option claude_client)
    (request : ExplanationRequest.t)
  : IO (ValidationError + ExplanationResponse.t) :=
  let query := ExplanationRequest.query request in
  let mode := ExplanationRequest.mode request in
  let kb_results := _search_kb query in
  let system_prompt := _build_system_prompt mode in
  let cited :=
    match kb_results with
    | _ :: _ => ExplanationRequest.include_citations request
    | [] => false
    end in
  let kb_context :=
    if cited
    then PyStr.fstring [ newline; newline; "Relevant knowledge:"; newline;
                         knowledge_lines kb_results ]
    else "" in
  let sources := if cited then source_notes kb_results else [] in
  let user_message := PyStr.fstring [query; kb_context] in
  answer <-
    match client with
    | None =>
        ret (_fallback_explanation query mode,
             map KbSnippet.source (firstn 2 kb_results),
             double_0_7)
    | Some create =>
        match create model_name 1500 system_prompt user_message with
        | inr text =>
            ret (text,
                 map KbSnippet.source kb_results,
                 match kb_results with
                 | _ :: _ => double_0_9
                 | [] => double_0_6
                 end)
        | inl e =>
            logger_error "Claude API error in explain" (str_exc e) ;;
            ret (_fallback_explanation query mode, [], double_0_5)
        end
    end ;;
  ret (ExplanationResponse.create
         query mode (fst (fst answer)) (snd (fst answer)) (snd answer)
         sources).

End SpaceAgentService.

(** What one round over a catalogue receives and what it has to log: the
    passes of the satellites whose pass request returned, in catalogue
    order, and one record per satellite whose pass request raised. *)
Definition passes_received (n2yo : N2YO.service) (utcoffset : Z -> option Z)
    (location : Location.t) (days : Z) (min_elevation : pyfloat)
    (catalogue : list (string * (string * string)))
  : list SatellitePass.t :=
  flat_map
    (fun entry =>
       match SatelliteService._get_satellite_passes_of
               n2yo utcoffset (fst (snd entry)) location days min_elevation
       with
       | inr sat_passes => sat_passes
       | inl _ => []
       end)
    catalogue.

Definition failures_met (n2yo : N2YO.service) (utcoffset : Z -> option Z)
    (location : Location.t) (days : Z) (min_elevation : pyfloat)
    (catalogue : list (string * (string * string)))
  : list SatLogEvent :=
  flat_map
    (fun entry =>
       match SatelliteService._get_satellite_passes_of
               n2yo utcoffset (fst (snd entry)) location days min_elevation
       with
       | inr _ => []
       | inl e =>
           [ {| sat_event := "Failed to get passes";
                satellite := fst entry; failure := e |} ]
       end)
    catalogue.

(** A record on which neither the test at the head of the loop nor one
    of its three conversions raises. *)
Definition readable (utcoffset : Z -> option Z) (pd : PassData.t) : bool :=
  match SatelliteService.worth_watching pd,
        SatelliteService.fromtimestamp utcoffset (PassData.startUTC pd),
        SatelliteService.fromtimestamp utcoffset (PassData.maxUTC pd),
        SatelliteService.fromtimestamp utcoffset (PassData.endUTC pd) with
  | inr _, inr _, inr _, inr _ => true
  | _, _, _, _ => false
  end.

(** [p] holds what the loop reads and computes from the record [pd]. *)
Definition built_from (utcoffset : Z -> option Z) (pd : PassData.t)
    (p : SatellitePass.t) : Prop :=
  SatelliteService.fromtimestamp utcoffset (PassData.startUTC pd)
  = inr (SatellitePass.start_time p)
  /\ SatelliteService.fromtimestamp utcoffset (PassData.maxUTC pd)
     = inr (SatellitePass.max_elevation_time p)
  /\ SatelliteService.fromtimestamp utcoffset (PassData.endUTC pd)
     = inr (SatellitePass.end_time p)
  /\ SatelliteService.worth_watching pd
     = inr (SatellitePass.worth_watching p)
  /\ SatellitePass.commentary p
     = Some (SatelliteService._generate_commentary
               pd (SatellitePass.worth_watching p))
  /\ SatellitePass.max_elevation p = PassData.maxEl pd
  /\ SatellitePass.magnitude p = entry_get (PassData.mag pd)
  /\ SatellitePass.duration_seconds p = PassData.duration pd.

Definition starts_no_later (p q : SatellitePass.t) : Prop :=
  SatellitePass.start_time p <= SatellitePass.start_time q.

Definition is_iss (p : SatellitePass.t) : bool :=
  PyStr.contains "ISS" (SatellitePass.satellite_name p).

(* ===================================================================== *)
(** ** Running the monad; facts on float comparison *)
(* ===================================================================== *)

Import SpaceWeatherService.

Lemma run_ret {A : Type} (a : A) (w : World) : run (ret a) w = (a, w).
Proof. reflexivity. Qed.

Lemma run_bind {A B : Type} (c : IO A) (f : A -> IO B) (w : World) :
  run (bind c f) w = run (f (fst (run c w))) (snd (run c w)).
Proof. unfold run. simpl. destruct (runState c w). reflexivity. Qed.

Lemma run_utcnow (w : World) :
  run utcnow w
  = (clock w (reads w),
     {| clock := clock w; reads := S (reads w); log := log w |}).
Proof. reflexivity. Qed.

Ltac q_cases :=
  repeat match goal with
    | |- context [(?x ?= ?y)%Q] => destruct (Qcompare_spec x y)
    | H : context [(?x ?= ?y)%Q] |- _ => destruct (Qcompare_spec x y)
    end.

(** A threshold reached by [a] is reached by any [b] above [a]. *)
Lemma geb_mono (a b : pyfloat) (n : Z) :
  (a <=! b)%pyf = true -> (a >=! n)%pyf = true -> (b >=! n)%pyf = true.
Proof.
  unfold PyFloat.leb, PyFloat.geb, PyFloat.of_int.
  destruct a as [ | [] | | qa ], b as [ | [] | | qb ]; simpl; try congruence;
    q_cases; try congruence; intros _ _; exfalso; lra.
Qed.


(* ===================================================================== *)
(** ** GPS and satellite-operations risk *)
(* ===================================================================== *)

Lemma existsb_earth_directed (cmes : list CME.t) :
  existsb CME.earth_directed cmes = true <-> Spec.some_earth_directed cmes.
Proof.
  unfold Spec.some_earth_directed. rewrite existsb_exists. reflexivity.
Qed.

Lemma gps_refines (kp : pyfloat) (cmes : list CME.t) :
  Spec.gps_risk kp cmes (_assess_gps_risk kp cmes).
Proof.
  unfold _assess_gps_risk.
  destruct (kp >=! 7)%pyf eqn:E7; simpl.
  - apply Spec.gps_high. left. exact E7.
  - destruct (existsb CME.earth_directed cmes) eqn:Ec.
    + apply Spec.gps_high. right. apply existsb_earth_directed. exact Ec.
    + assert (Hn : ~ (Spec.ge kp 7 \/ Spec.some_earth_directed cmes)).
      { intros [H | H]; [unfold Spec.ge in H; congruence|].
        apply existsb_earth_directed in H. congruence. }
      destruct (kp >=! 5)%pyf eqn:E5.
      * now apply Spec.gps_moderate.
      * destruct (kp >=! 4)%pyf eqn:E4.
        -- apply Spec.gps_minor; try exact Hn; unfold Spec.ge; congruence.
        -- apply Spec.gps_none; try exact Hn; unfold Spec.ge; congruence.
Qed.

Lemma gps_risk_functional (kp : pyfloat) (cmes : list CME.t) (r1 r2 : string) :
  Spec.gps_risk kp cmes r1 -> Spec.gps_risk kp cmes r2 -> r1 = r2.
Proof.
  intros H1 H2; destruct H1; destruct H2; tauto || reflexivity.
Qed.

(** C2.  The GPS risk returned by [_assess_gps_risk] is the band the
    specification names: high when kp >= 7 or some CME is earth-directed,
    else moderate when kp >= 5, else minor when kp >= 4, else none; it is
    the only such band; an earth-directed CME forces high whatever kp is;
    and the assessment of kp = 7.0 with no flare and one earth-directed
    CME reports a high GPS risk. *)
Theorem C2_gps_risk_bands :
  forall (kp : pyfloat) (cmes : list CME.t),
    Spec.gps_risk kp cmes (_assess_gps_risk kp cmes)
    /\ (forall r, Spec.gps_risk kp cmes r -> r = _assess_gps_risk kp cmes)
    /\ (Spec.some_earth_directed cmes -> _assess_gps_risk kp cmes = "high")
    /\ (forall (w : World) (ts : datetime),
          SpaceWeatherStatus.gps_degradation_risk
            (fst (run (assess (FFin 7) [] [Fixture.directed_cme ts]) w))
          = "high").
Proof.
  intros kp cmes. split; [apply gps_refines|]. split.
  - intros r H. eapply gps_risk_functional; [exact H | apply gps_refines].
  - split.
    + intros H. apply existsb_earth_directed in H.
      unfold _assess_gps_risk. rewrite H, orb_true_r. reflexivity.
    + intros w ts. reflexivity.
Qed.

(** The override of C2 at work: kp 2.0 and one earth-directed CME. *)
Lemma C2_gps_risk_bands_witness :
  let cmes := [Fixture.directed_cme Fixture.noon] in
  Spec.some_earth_directed cmes
  /\ _assess_gps_risk (FFin 2) cmes = "high".
Proof.
  intros cmes.
  assert (H : Spec.some_earth_directed cmes).
  { exists (Fixture.directed_cme Fixture.noon).
    split; [left; reflexivity | reflexivity]. }
  split; [exact H|].
  exact (proj1 (proj2 (proj2 (C2_gps_risk_bands (FFin 2) cmes))) H).
Defined.

Lemma existsb_big_x (flares : list SolarFlare.t) :
  existsb (fun f => (SolarFlare.class_type f =? "X")%string
                    && (SolarFlare.scale f >! 5)%pyf) flares = true
  <-> Spec.some_big_x flares.
Proof.
  unfold Spec.some_big_x, Spec.is_class, Spec.gt. rewrite existsb_exists.
  split; intros [f [Hin H]]; exists f; split; try exact Hin.
  - apply andb_true_iff in H. destruct H as [Hc Hs].
    apply String.eqb_eq in Hc. tauto.
  - destruct H as [Hc Hs]. apply andb_true_iff. split; [|exact Hs].
    apply String.eqb_eq. exact Hc.
Qed.

Lemma existsb_x (flares : list SolarFlare.t) :
  existsb (fun f => SolarFlare.class_type f =? "X")%string flares = true
  <-> Spec.some_x flares.
Proof.
  unfold Spec.some_x, Spec.is_class. rewrite existsb_exists.
  split; intros [f [Hin H]]; exists f; split; try exact Hin;
    apply String.eqb_eq; exact H.
Qed.

Lemma or_bool_prop (a b : bool) (P Q : Prop) :
  (a = true <-> P) -> (b = true <-> Q) -> (a || b = true <-> P \/ Q).
Proof. intros HP HQ. rewrite orb_true_iff. tauto. Qed.

Lemma sat_refines kp flares cmes :
  Spec.satellite_risk kp flares (_assess_satellite_risk kp flares cmes).
Proof.
  unfold _assess_satellite_risk.
  pose proof (or_bool_prop _ _ _ _ (iff_refl ((kp >=! 8)%pyf = true))
                (existsb_big_x flares)) as H8.
  pose proof (or_bool_prop _ _ _ _ (iff_refl ((kp >=! 6)%pyf = true))
                (existsb_x flares)) as H6.
  fold (Spec.ge kp 8) in H8. fold (Spec.ge kp 6) in H6.
  destruct ((kp >=! 8)%pyf || existsb _ flares) eqn:E8.
  - apply Spec.sat_high. now apply H8.
  - assert (N8 : ~ (Spec.ge kp 8 \/ Spec.some_big_x flares))
      by (intros H; apply H8 in H; congruence).
    destruct ((kp >=! 6)%pyf || existsb _ flares) eqn:E6.
    + apply Spec.sat_moderate; [exact N8 | now apply H6].
    + assert (N6 : ~ (Spec.ge kp 6 \/ Spec.some_x flares))
        by (intros H; apply H6 in H; congruence).
      destruct (kp >=! 5)%pyf eqn:E5.
      * now apply Spec.sat_minor.
      * apply Spec.sat_none; try assumption. unfold Spec.ge. congruence.
Qed.

Lemma satellite_risk_functional kp flares r1 r2 :
  Spec.satellite_risk kp flares r1 -> Spec.satellite_risk kp flares r2 ->
  r1 = r2.
Proof.
  intros H1 H2; destruct H1; destruct H2; tauto || reflexivity.
Qed.

(** C3.  The satellite-operations risk returned by
    [_assess_satellite_risk] is the band the specification names, read
    top-down with the first match winning: high when kp >= 8 or an
    X-class flare of scale > 5 exists, else moderate when kp >= 6 or any
    X-class flare exists, else minor when kp >= 5, else none; it is the
    only such band; and the assessment of kp = 3.0 with a single X-class
    flare of scale 6 reports a high satellite risk. *)
Theorem C3_satellite_risk_bands :
  forall (kp : pyfloat) (flares : list SolarFlare.t) (cmes : list CME.t),
    Spec.satellite_risk kp flares (_assess_satellite_risk kp flares cmes)
    /\ (forall r, Spec.satellite_risk kp flares r ->
                  r = _assess_satellite_risk kp flares cmes)
    /\ (forall (w : World) (now : datetime),
          SpaceWeatherStatus.satellite_risk
            (fst (run (assess (FFin 3)
                              [Fixture.flare "X" (PyFloat.of_int 6) now] []) w))
          = "high").
Proof.
  intros kp flares cmes. split; [apply sat_refines|]. split.
  - intros r H. eapply satellite_risk_functional; [exact H | apply sat_refines].
  - intros w now. unfold assess. rewrite run_bind. reflexivity.
Qed.

(* ===================================================================== *)
(** ** Pass evaluation *)
(* ===================================================================== *)

Import SatelliteService.

Lemma optional_field_ok_unconstrained (v : option pyfloat) :
  optional_field_ok unconstrained v = true.
Proof. destruct v; reflexivity. Qed.

Lemma create_never_rejects (name : string) (id : Z)
    (start peak finish : datetime)
    (max_el start_az max_az end_az : pyfloat) (mag : option pyfloat)
    (duration : Z) (worth : bool) (comment : option string) :
  SatellitePass.create name id start peak finish max_el start_az max_az
                       end_az mag duration worth comment
  = inr (SatellitePass.make name id start peak finish max_el start_az max_az
                            end_az mag duration worth comment).
Proof.
  unfold SatellitePass.create, SatellitePass.magnitude_field.
  rewrite optional_field_ok_unconstrained. reflexivity.
Qed.

(** The rule on the three shapes of the ["mag"] entry. *)
Lemma worth_watching_true (pd : PassData.t) :
  worth_watching pd = inr true
  <-> Spec.worth_watching (PassData.maxEl pd) (entry_get (PassData.mag pd)).
Proof.
  unfold worth_watching, Spec.worth_watching, Spec.gt, Spec.bright.
  destruct (PassData.maxEl pd >! 40)%pyf eqn:E40.
  - split; [intros _; left; reflexivity | reflexivity].
  - destruct (PassData.mag pd) as [ | | v]; cbn [entry_get entry_get_default].
    + split.
      * intros H. vm_compute in H. discriminate H.
      * intros [H | [m [H _]]]; discriminate H.
    + split.
      * intros H. discriminate H.
      * intros [H | [m [H _]]]; discriminate H.
    + split.
      * intros H. right. exists v. split; [reflexivity|]. congruence.
      * intros [H | [m [Hm Hlt]]]; [discriminate H|].
        injection Hm as ->. rewrite Hlt. reflexivity.
Qed.

(** What a pass that was built holds. *)
Lemma build_pass_inv (utcoffset : Z -> option Z) (data : PassesData.t)
    (pd : PassData.t) (p : SatellitePass.t) :
  build_pass utcoffset data pd = inr p ->
  built_from utcoffset pd p
  /\ SatellitePass.satellite_name p = PassesData.satname data
  /\ SatellitePass.satellite_id p = PassesData.satid data.
Proof.
  unfold build_pass, built_from.
  destruct (worth_watching pd) as [e | worth]; [discriminate|].
  destruct (fromtimestamp utcoffset (PassData.startUTC pd)) as [f | start];
    [discriminate|].
  destruct (fromtimestamp utcoffset (PassData.maxUTC pd)) as [f | peak];
    [discriminate|].
  destruct (fromtimestamp utcoffset (PassData.endUTC pd)) as [f | finish];
    [discriminate|].
  rewrite create_never_rejects. intros H. injection H as <-.
  cbn. repeat split.
Qed.

(** A readable record is built. *)
Lemma build_pass_readable (utcoffset : Z -> option Z) (data : PassesData.t)
    (pd : PassData.t) :
  readable utcoffset pd = true ->
  exists p, build_pass utcoffset data pd = inr p.
Proof.
  unfold readable, build_pass.
  destruct (worth_watching pd) as [e | worth]; [discriminate|].
  destruct (fromtimestamp utcoffset (PassData.startUTC pd)) as [f | start];
    [discriminate|].
  destruct (fromtimestamp utcoffset (PassData.maxUTC pd)) as [f | peak];
    [discriminate|].
  destruct (fromtimestamp utcoffset (PassData.endUTC pd)) as [f | finish];
    [discriminate|].
  intros _. rewrite create_never_rejects. eexists. reflexivity.
Qed.

Lemma build_pass_only_readable (utcoffset : Z -> option Z)
    (data : PassesData.t) (pd : PassData.t) (p : SatellitePass.t) :
  build_pass utcoffset data pd = inr p -> readable utcoffset pd = true.
Proof.
  intros H. destruct (build_pass_inv _ _ _ _ H) as [[Hs [Hm [He [Hw _]]]] _].
  unfold readable. rewrite Hs, Hm, He, Hw. reflexivity.
Qed.



Lemma visibility_refines (el : pyfloat) :
  Spec.visibility_clause el
    (if (el >! 70)%pyf then "Overhead pass! Excellent viewing."
     else if (el >! 50)%pyf then "High pass, very good viewing."
     else if (el >! 30)%pyf then "Good pass, should be easy to spot."
     else "Moderate pass, clear sky recommended.").
Proof.
  destruct (el >! 70)%pyf eqn:E70; [now constructor|].
  destruct (el >! 50)%pyf eqn:E50;
    [apply Spec.vis_high; unfold Spec.gt; congruence|].
  destruct (el >! 30)%pyf eqn:E30;
    [apply Spec.vis_good | apply Spec.vis_moderate]; unfold Spec.gt; congruence.
Qed.

Lemma duration_refines (d : Z) :
  Spec.duration_clause d
    (if d <? 180 then "Quick pass"
     else if d <? 360 then "Standard duration"
     else "Long pass").
Proof.
  destruct (Z.ltb_spec d 180); [now constructor|].
  destruct (Z.ltb_spec d 360); constructor; lia.
Qed.

(** C5.  For a pass that is not worth watching [_generate_commentary]
    returns the fixed low-pass text whatever the duration; for one that
    is, it returns the visibility clause chosen by elevation (> 70, > 50,
    > 30, else), a space, the duration clause (< 180 s, < 360 s, else),
    and the duration in parentheses followed by "s)."; elevation 75 with
    duration 200 gives the overhead text with a standard duration, and
    elevation 20 with duration 100 and no magnitude the low-pass text. *)
Theorem C5_commentary_tiers :
  forall (pd : PassData.t),
    _generate_commentary pd false = "Low pass, may not be easily visible."
    /\ (exists v t,
          Spec.visibility_clause (PassData.maxEl pd) v
          /\ Spec.duration_clause (PassData.duration pd) t
          /\ _generate_commentary pd true
             = (v ++ " " ++ t ++ " ("
                  ++ PyStr.of_int (PassData.duration pd) ++ "s).")%string)
    /\ (let overhead := Fixture.pass_data (PyFloat.of_int 75) 200 None in
        worth_watching overhead = inr true
        /\ _generate_commentary overhead true
           = "Overhead pass! Excellent viewing. Standard duration (200s).")
    /\ (let low := Fixture.pass_data (PyFloat.of_int 20) 100 None in
        worth_watching low = inr false
        /\ _generate_commentary low false
           = "Low pass, may not be easily visible.").
Proof.
  intros pd. split; [reflexivity|].
  split; [|split; split; reflexivity].
  eexists. eexists. split; [apply visibility_refines|].
  split; [apply duration_refines|].
  unfold _generate_commentary, PyStr.fstring. simpl.
  reflexivity.
Qed.

(* ===================================================================== *)
(** ** HF-radio risk and the one-hour window *)
(* ===================================================================== *)

(** Symbolic execution of a monadic program, one step at a time. *)
Ltac run_step :=
  match goal with
  | |- context [run (bind ?c ?f) ?w] => rewrite (run_bind c f w)
  | |- context [run (ret ?a) ?w] => rewrite (run_ret a w)
  | |- context [run utcnow ?w] => rewrite (run_utcnow w)
  | |- context [fst (?a, ?b)] => change (fst (a, b)) with a
  | |- context [snd (?a, ?b)] => change (snd (a, b)) with b
  end.
Ltac run_steps := repeat run_step.

(** C1.  Evaluation of [_assess_hf_radio_risk] on a single X-class flare
    observed one day and ten minutes before the evaluation time: the
    service reports a high HF-radio risk, because it compares the
    [seconds] attribute of the elapsed time (600 here, the whole day being
    held in [days]) with 3600, whereas the one-hour window of the
    specification leaves the flare out and gives minor. *)
Theorem C1_hf_radio_day_old_flare_is_recent :
  forall (w : World),
    let now := clock w (reads w) in
    let stale :=
      Fixture.flare "X" (PyFloat.of_int 1)
                    (Datetime.minus now (Datetime.make 1 0 10 0)) in
    fst (run (_assess_hf_radio_risk [stale]) w) = "high"
    /\ Spec.hf_radio_risk now [stale] = "minor".
Proof.
  intros w now stale. split.
  - unfold _assess_hf_radio_risk.
    unfold recent_strong. subst stale. simpl PyStr.mem. cbv iota.
    run_steps.
    unfold Datetime.sub, Fixture.flare, Datetime.minus.
    simpl SolarFlare.timestamp. fold now.
    replace (now - (now - Datetime.to_us (Datetime.make 1 0 10 0)))
      with (Datetime.to_us (Datetime.make 1 0 10 0)) by lia.
    reflexivity.
  - unfold Spec.hf_radio_risk, Spec.recent_strong. subst stale.
    unfold Datetime.sub, Fixture.flare, Datetime.minus. simpl.
    replace (now - (now - Datetime.to_us (Datetime.make 1 0 10 0)))
      with (Datetime.to_us (Datetime.make 1 0 10 0)) by lia.
    reflexivity.
Qed.

(* ===================================================================== *)
(** ** Monotonicity in kp *)
(* ===================================================================== *)

(** Case analysis on every threshold test made on [kp]. *)
Ltac thresholds kp :=
  repeat match goal with
    | |- context [PyFloat.geb kp ?c] =>
        let E := fresh "E" in destruct (PyFloat.geb kp c) eqn:E
    end.

Ltac above lo hi Hle :=
  repeat match goal with
    | E : PyFloat.geb lo (PyFloat.of_int ?n) = true,
      F : PyFloat.geb hi (PyFloat.of_int ?n) = false |- _ =>
        rewrite (geb_mono lo hi n Hle E) in F; discriminate F
    end.

Section KpOrder.

Variables kp1 kp2 : pyfloat.
Hypothesis kp1_le_kp2 : (kp1 <=! kp2)%pyf = true.

Lemma gps_monotone (cmes : list CME.t) :
  Spec.le_by Spec.risk_rank (_assess_gps_risk kp1 cmes)
                            (_assess_gps_risk kp2 cmes).
Proof.
  unfold _assess_gps_risk.
  destruct (existsb CME.earth_directed cmes);
    thresholds kp1; thresholds kp2; above kp1 kp2 kp1_le_kp2;
    vm_compute; lia.
Qed.

Lemma satellite_monotone (flares : list SolarFlare.t) (cmes : list CME.t) :
  Spec.le_by Spec.risk_rank (_assess_satellite_risk kp1 flares cmes)
                            (_assess_satellite_risk kp2 flares cmes).
Proof.
  unfold _assess_satellite_risk.
  destruct (existsb _ flares); destruct (existsb _ flares);
    thresholds kp1; thresholds kp2; above kp1 kp2 kp1_le_kp2;
    vm_compute; lia.
Qed.

Lemma aurora_monotone :
  Spec.le_by Spec.aurora_rank (_assess_aurora_visibility kp1)
                              (_assess_aurora_visibility kp2).
Proof.
  unfold _assess_aurora_visibility.
  thresholds kp1; thresholds kp2; above kp1 kp2 kp1_le_kp2; vm_compute; lia.
Qed.

(** The severity of the explanation reads [kp_current] only. *)
Lemma severity_monotone (s1 s2 : SpaceWeatherStatus.t) :
  SpaceWeatherStatus.kp_current s1 = kp1 ->
  SpaceWeatherStatus.kp_current s2 = kp2 ->
  Spec.le_by Spec.severity_rank
    (SpaceWeatherImpact.severity (generate_impact_explanation s1))
    (SpaceWeatherImpact.severity (generate_impact_explanation s2)).
Proof.
  intros E1 E2. unfold generate_impact_explanation. simpl.
  rewrite E1, E2.
  thresholds kp1; thresholds kp2; above kp1 kp2 kp1_le_kp2; vm_compute; lia.
Qed.

End KpOrder.

Lemma hf_is_a_level (flares : list SolarFlare.t) (w : World) :
  exists n, Spec.risk_rank (fst (run (_assess_hf_radio_risk flares) w)) = Some n.
Proof.
  unfold _assess_hf_radio_risk. destruct flares as [|f rest].
  - exists 0%nat. reflexivity.
  - run_steps.
    destruct (existsb _ _); [exists 3%nat; reflexivity|].
    destruct (fst (run (recent_strong (f :: rest)) w));
      [exists 1%nat | exists 2%nat]; reflexivity.
Qed.

Lemma assess_kp_current kp flares cmes w :
  SpaceWeatherStatus.kp_current (fst (run (assess kp flares cmes) w)) = kp.
Proof. unfold assess. run_steps. reflexivity. Qed.

(** C6.  With the flare list, the CME list and the wall clock held fixed,
    and for kp1 <= kp2 both in [0, 9], the GPS risk, the HF-radio risk,
    the satellite-operations risk and the aurora visibility at kp2 are at
    least as severe as at kp1 (none < minor < moderate < high, and
    unlikely < visible_polar_regions < visible_high_latitudes <
    visible_mid_latitudes), and so is the severity of the impact
    explanation built from the status (info < moderate < high). *)
Theorem C6_risk_monotone_in_kp :
  forall (flares : list SolarFlare.t) (cmes : list CME.t) (w : World)
         (kp1 kp2 : pyfloat),
    (0 <=! kp1)%pyf = true ->
    (kp1 <=! kp2)%pyf = true ->
    (kp2 <=! 9)%pyf = true ->
    let s1 := fst (run (assess kp1 flares cmes) w) in
    let s2 := fst (run (assess kp2 flares cmes) w) in
    Spec.le_by Spec.risk_rank (_assess_gps_risk kp1 cmes)
                              (_assess_gps_risk kp2 cmes)
    /\ Spec.le_by Spec.risk_rank (SpaceWeatherStatus.hf_radio_risk s1)
                                 (SpaceWeatherStatus.hf_radio_risk s2)
    /\ Spec.le_by Spec.risk_rank (_assess_satellite_risk kp1 flares cmes)
                                 (_assess_satellite_risk kp2 flares cmes)
    /\ Spec.le_by Spec.aurora_rank (_assess_aurora_visibility kp1)
                                   (_assess_aurora_visibility kp2)
    /\ Spec.le_by Spec.severity_rank
         (SpaceWeatherImpact.severity (generate_impact_explanation s1))
         (SpaceWeatherImpact.severity (generate_impact_explanation s2)).
Proof.
  intros flares cmes w kp1 kp2 _ Hle _ s1 s2.
  split; [exact (gps_monotone kp1 kp2 Hle cmes)|].
  split.
  { subst s1 s2. unfold assess. run_steps. simpl.
    destruct (hf_is_a_level flares w) as [n Hn].
    unfold Spec.le_by. rewrite Hn. apply Nat.le_refl. }
  split; [exact (satellite_monotone kp1 kp2 Hle flares cmes)|].
  split; [exact (aurora_monotone kp1 kp2 Hle)|].
  apply (severity_monotone kp1 kp2 Hle); apply assess_kp_current.
Qed.

(** C6 at kp 4.5 and 7.0, with one M-class flare and no CME. *)
Lemma C6_risk_monotone_in_kp_witness :
  let flares := [Fixture.flare "M" (PyFloat.of_int 2) Fixture.noon] in
  let w := Fixture.ticking Fixture.noon 1000 in
  let kp1 := FFin (9 # 2) in
  let kp2 := FFin 7 in
  let s1 := fst (run (assess kp1 flares []) w) in
  let s2 := fst (run (assess kp2 flares []) w) in
  ((0 <=! kp1)%pyf = true /\ (kp1 <=! kp2)%pyf = true
   /\ (kp2 <=! 9)%pyf = true)
  /\ Spec.le_by Spec.risk_rank (_assess_gps_risk kp1 [])
                               (_assess_gps_risk kp2 [])
  /\ Spec.le_by Spec.risk_rank (SpaceWeatherStatus.hf_radio_risk s1)
                               (SpaceWeatherStatus.hf_radio_risk s2)
  /\ Spec.le_by Spec.risk_rank (_assess_satellite_risk kp1 flares [])
                               (_assess_satellite_risk kp2 flares [])
  /\ Spec.le_by Spec.aurora_rank (_assess_aurora_visibility kp1)
                                 (_assess_aurora_visibility kp2)
  /\ Spec.le_by Spec.severity_rank
       (SpaceWeatherImpact.severity (generate_impact_explanation s1))
       (SpaceWeatherImpact.severity (generate_impact_explanation s2)).
Proof.
  intros flares w kp1 kp2 s1 s2.
  split; [repeat split|].
  apply (C6_risk_monotone_in_kp flares [] w kp1 kp2); reflexivity.
Defined.

(* ===================================================================== *)
(** ** Dependence on the wall clock *)
(* ===================================================================== *)

Lemma recent_strong_cons (f : SolarFlare.t) (rest : list SolarFlare.t) :
  recent_strong (f :: rest)
  = if PyStr.mem (SolarFlare.class_type f) ["M"; "X"]
    then (now <- utcnow ;;
          tl <- recent_strong rest ;;
          ret (if seconds (Datetime.sub now (SolarFlare.timestamp f)) <? 3600
               then f :: tl else tl))
    else recent_strong rest.
Proof. reflexivity. Qed.

Lemma strong_count_cons (f : SolarFlare.t) (rest : list SolarFlare.t) :
  strong_count (f :: rest)
  = if PyStr.mem (SolarFlare.class_type f) ["M"; "X"]
    then S (strong_count rest)
    else strong_count rest.
Proof.
  unfold strong_count. cbn [filter].
  destruct (PyStr.mem (SolarFlare.class_type f) ["M"; "X"]); reflexivity.
Qed.

(** [recent_strong] reads the clock once per M- or X-class flare and
    touches nothing else of the world. *)
Lemma recent_strong_world (flares : list SolarFlare.t) (w : World) :
  snd (run (recent_strong flares) w)
  = {| clock := clock w;
       reads := (reads w + strong_count flares)%nat;
       log := log w |}.
Proof.
  revert w. induction flares as [|f rest IH]; intros w.
  - destruct w. simpl. rewrite Nat.add_0_r. reflexivity.
  - rewrite recent_strong_cons, strong_count_cons.
    destruct (PyStr.mem (SolarFlare.class_type f) ["M"; "X"]).
    + run_steps. rewrite IH. simpl. f_equal. lia.
    + apply IH.
Qed.

(** Its result depends on the clock through those readings only. *)
Lemma recent_strong_same_readings (flares : list SolarFlare.t) :
  forall (w1 w2 : World),
    (forall i, (i < strong_count flares)%nat ->
               clock w1 (reads w1 + i)%nat = clock w2 (reads w2 + i)%nat) ->
    fst (run (recent_strong flares) w1) = fst (run (recent_strong flares) w2).
Proof.
  induction flares as [|f rest IH]; intros w1 w2 Hsame; [reflexivity|].
  rewrite strong_count_cons in Hsame. rewrite recent_strong_cons.
  destruct (PyStr.mem (SolarFlare.class_type f) ["M"; "X"]).
  - run_steps.
    pose proof (Hsame 0%nat (Nat.lt_0_succ _)) as H0.
    rewrite !Nat.add_0_r in H0. rewrite H0.
    rewrite (IH {| clock := clock w1; reads := S (reads w1); log := log w1 |}
                {| clock := clock w2; reads := S (reads w2); log := log w2 |}).
    + reflexivity.
    + intros i Hi. simpl.
      specialize (Hsame (S i)). rewrite !Nat.add_succ_r in Hsame.
      apply Hsame. lia.
  - apply IH. exact Hsame.
Qed.

Lemma hf_radio_world (flares : list SolarFlare.t) (w : World) :
  snd (run (_assess_hf_radio_risk flares) w)
  = {| clock := clock w;
       reads := (reads w + strong_count flares)%nat;
       log := log w |}.
Proof.
  unfold _assess_hf_radio_risk. destruct flares as [|f rest].
  - destruct w. simpl. rewrite Nat.add_0_r. reflexivity.
  - run_steps. apply recent_strong_world.
Qed.

Lemma hf_radio_same_readings (flares : list SolarFlare.t) (w1 w2 : World) :
  (forall i, (i < strong_count flares)%nat ->
             clock w1 (reads w1 + i)%nat = clock w2 (reads w2 + i)%nat) ->
  fst (run (_assess_hf_radio_risk flares) w1)
  = fst (run (_assess_hf_radio_risk flares) w2).
Proof.
  intros Hsame. unfold _assess_hf_radio_risk.
  destruct flares as [|f rest]; [reflexivity|].
  run_steps. rewrite (recent_strong_same_readings (f :: rest) w1 w2 Hsame).
  reflexivity.
Qed.

(** C7 (as amended).  The status computed by the assessment is a
    function of kp, the flare list, the CME list and the wall-clock
    readings it takes, one per M- or X-class flare and one for the
    timestamp: two runs on the same inputs in worlds whose clocks agree on
    those readings return the same status, whatever else differs between
    the worlds. *)
Theorem C7_assess_determined_by_inputs_and_clock :
  forall (kp : pyfloat) (flares : list SolarFlare.t) (cmes : list CME.t)
         (w1 w2 : World),
    (forall i, (i <= strong_count flares)%nat ->
               clock w1 (reads w1 + i)%nat = clock w2 (reads w2 + i)%nat) ->
    fst (run (assess kp flares cmes) w1) = fst (run (assess kp flares cmes) w2).
Proof.
  intros kp flares cmes w1 w2 Hsame. unfold assess. run_steps.
  rewrite !hf_radio_world. simpl clock. simpl reads.
  rewrite (hf_radio_same_readings flares w1 w2)
    by (intros i Hi; apply Hsame; lia).
  rewrite (Hsame (strong_count flares) (Nat.le_refl _)).
  reflexivity.
Qed.

(** The statement above at work: a world ticking every millisecond and a
    world visited again two hours later agree on the two readings one
    assessment of a single X-class flare takes. *)
Lemma C7_assess_determined_witness :
  let flares := [Fixture.flare "X" (PyFloat.of_int 1) Fixture.noon] in
  let w1 := Fixture.ticking Fixture.noon 1000 in
  let w2 := Fixture.two_visits Fixture.noon (Fixture.hours 2) 2 in
  (forall i, (i <= strong_count flares)%nat ->
             clock w1 (reads w1 + i)%nat = clock w2 (reads w2 + i)%nat)
  /\ fst (run (assess (FFin 3) flares []) w1)
     = fst (run (assess (FFin 3) flares []) w2).
Proof.
  intros flares w1 w2.
  assert (Hsame : forall i, (i <= strong_count flares)%nat ->
            clock w1 (reads w1 + i)%nat = clock w2 (reads w2 + i)%nat).
  { intros i Hi. destruct i as [|[|i]]; [reflexivity | reflexivity |].
    exfalso. vm_compute in Hi. lia. }
  split; [exact Hsame|].
  apply (C7_assess_determined_by_inputs_and_clock (FFin 3) flares [] w1 w2).
  exact Hsame.
Defined.

(** C7 (as stated) fails: two calls of the assessment on identical
    kp, flares and CMEs, the second made two hours after the first, return
    statuses that differ in HF-radio risk, summary and timestamp.  The
    flare is X-class and ten minutes old at the first call. *)
Lemma C7_two_calls_differ :
  let flares :=
    [Fixture.flare "X" (PyFloat.of_int 1)
                   (Fixture.noon - Fixture.minutes 10)] in
  let w := Fixture.two_visits Fixture.noon (Fixture.hours 2) 2 in
  let both := fst (run (assess_twice (FFin 3) flares []) w) in
  SpaceWeatherStatus.hf_radio_risk (fst both) = "high"
  /\ SpaceWeatherStatus.hf_radio_risk (snd both) = "minor"
  /\ SpaceWeatherStatus.summary (fst both)
     = "Status: Quiet geomagnetic conditions (Kp 3.0). High HF radio disruption."
  /\ SpaceWeatherStatus.summary (snd both)
     = "Status: Quiet geomagnetic conditions (Kp 3.0). Most users unaffected."
  /\ (SpaceWeatherStatus.timestamp (fst both)
      <? SpaceWeatherStatus.timestamp (snd both)) = true
  /\ fst both <> snd both.
Proof. vm_compute. repeat split. intros H. discriminate H. Qed.

(* ===================================================================== *)
(** ** The aggregator's defaults *)
(* ===================================================================== *)

(** One gathered slot, settled: the value kept and the world after. *)
Lemma run_settle {A : Type} (what : string) (slot : gathered A) (default : A)
    (w : World) :
  run (match slot with
       | Raised e => logger_error what (str_exc e) ;; ret default
       | Returned v => ret v
       end) w
  = (settled slot default,
     {| clock := clock w; reads := reads w;
        log := (log w ++ failure_events what slot)%list |}).
Proof.
  destruct slot as [v | e]; simpl.
  - rewrite app_nil_r. destruct w; reflexivity.
  - reflexivity.
Qed.



Lemma get_current_status_settled (kp : gathered pyfloat)
    (flares : gathered (list SolarFlare.t)) (cmes : gathered (list CME.t))
    (w : World) :
  run (get_current_status false kp flares cmes) w
  = run (assess (settled kp (FFin 3)) (settled flares []) (settled cmes []))
        {| clock := clock w; reads := reads w;
           log := (log w ++ failure_events "Failed to fetch Kp" kp
                         ++ failure_events "Failed to fetch flares" flares
                         ++ failure_events "Failed to fetch CMEs" cmes)%list |}.
Proof.
  unfold get_current_status.
  rewrite run_bind, run_settle. simpl fst. simpl snd.
  rewrite run_bind, run_settle. simpl fst. simpl snd.
  rewrite run_bind, run_settle. simpl fst. simpl snd.
  rewrite <- !app_assoc. reflexivity.
Qed.

Lemma run_get_current_kp_raised (e : PyException) (w : World) :
  run (_get_current_kp (KpRaised e)) w
  = (FFin 3,
     {| clock := clock w; reads := reads w;
        log := (log w ++ [ {| level := "error"; event := "Kp fetch failed";
                              error := str_exc e |} ])%list |}).
Proof. reflexivity. Qed.

Lemma run_get_current_kp (x : kp_exchange) (w : World) :
  run (_get_current_kp x) w
  = (match x with KpRead v => v | _ => FFin 3 end,
     {| clock := clock w; reads := reads w;
        log := (log w
                ++ match x with
                   | KpRaised e =>
                       [ {| level := "error"; event := "Kp fetch failed";
                            error := str_exc e |} ]
                   | _ => []
                   end)%list |}).
Proof.
  destruct x; simpl; try reflexivity;
    rewrite app_nil_r; destruct w; reflexivity.
Qed.



(* ===================================================================== *)
(** ** Construction of [SatellitePass] *)
(* ===================================================================== *)

Lemma build_passes_inv (utcoffset : Z -> option Z) (data : PassesData.t)
    (todo : list PassData.t) :
  forall built,
    build_passes utcoffset data todo = inr built ->
    Forall2 (built_from utcoffset) todo built.
Proof.
  induction todo as [|pd rest IH]; intros built; cbn [build_passes].
  - intros H. injection H as <-. constructor.
  - destruct (build_pass utcoffset data pd) as [f | p] eqn:Ep; [discriminate|].
    destruct (build_passes utcoffset data rest) as [f | tl]; [discriminate|].
    intros H. injection H as <-.
    constructor; [exact (proj1 (build_pass_inv _ _ _ _ Ep)) | now apply IH].
Qed.

Lemma build_passes_readable (utcoffset : Z -> option Z) (data : PassesData.t)
    (todo : list PassData.t) :
  forallb (readable utcoffset) todo = true ->
  exists built, build_passes utcoffset data todo = inr built.
Proof.
  induction todo as [|pd rest IH]; cbn [forallb build_passes].
  - intros _. exists []. reflexivity.
  - intros H. apply andb_true_iff in H. destruct H as [Hpd Hrest].
    destruct (build_pass_readable utcoffset data pd Hpd) as [p Ep].
    destruct (IH Hrest) as [tl Etl].
    rewrite Ep, Etl. eexists. reflexivity.
Qed.

Lemma build_passes_only_readable (utcoffset : Z -> option Z)
    (data : PassesData.t) (todo : list PassData.t) :
  forall built,
    build_passes utcoffset data todo = inr built ->
    forallb (readable utcoffset) todo = true.
Proof.
  induction todo as [|pd rest IH]; intros built; cbn [build_passes forallb];
    [reflexivity|].
  destruct (build_pass utcoffset data pd) as [f | p] eqn:Ep; [discriminate|].
  destruct (build_passes utcoffset data rest) as [f | tl]; [discriminate|].
  intros _. rewrite (build_pass_only_readable _ _ _ _ Ep), (IH tl eq_refl).
  reflexivity.
Qed.

(** C9 (as amended).  The [SatellitePass] model declares no constraint
    relating [end_time] to [start_time]: its constructor accepts every
    tuple of field values and stores them as given.  The pass loop checks
    none either: a record is built exactly when its worth-watching test
    and the conversion of its three timestamps do not raise, whatever
    the order of the three; and when every record of the answer is such,
    [_get_satellite_passes] returns one [SatellitePass] per record, in
    order, with the three times as converted from the record, the
    verdict of the test and the commentary. *)
Theorem C9_passes_are_built_without_time_check :
  forall (utcoffset : Z -> option Z) (data : PassesData.t)
         (todo : list PassData.t),
    entry_get_default (PassesData.passes data) [] = Some todo ->
    forallb (readable utcoffset) todo = true ->
    (forall name id start peak finish max_el start_az max_az end_az mag
            duration worth comment,
        SatellitePass.create name id start peak finish max_el start_az
                             max_az end_az mag duration worth comment
        = inr (SatellitePass.make name id start peak finish max_el start_az
                                  max_az end_az mag duration worth comment))
    /\ (forall pd,
          (exists p, build_pass utcoffset data pd = inr p)
          <-> readable utcoffset pd = true)
    /\ exists built,
         _get_satellite_passes utcoffset data = inr built
         /\ Forall2 (built_from utcoffset) todo built.
Proof.
  intros utcoffset data todo Hpasses Hreadable.
  split; [intros; apply create_never_rejects|]. split.
  - intros pd. split.
    + intros [p Hp]. exact (build_pass_only_readable _ _ _ _ Hp).
    + apply build_pass_readable.
  - unfold _get_satellite_passes. rewrite Hpasses.
    destruct (build_passes_readable utcoffset data todo Hreadable)
      as [built Hbuilt].
    exists built. split; [exact Hbuilt|].
    exact (build_passes_inv _ _ _ _ Hbuilt).
Qed.

(** C9 (as amended) on an answer with one record, whose set time lies
    before its rise time. *)
Lemma C9_passes_are_built_witness :
  let data := Fixture.iss [Fixture.backwards_pass] in
  entry_get_default (PassesData.passes data) [] = Some [Fixture.backwards_pass]
  /\ forallb (readable Fixture.utc) [Fixture.backwards_pass] = true
  /\ exists built,
       _get_satellite_passes Fixture.utc data = inr built
       /\ Forall2 (built_from Fixture.utc) [Fixture.backwards_pass] built.
Proof.
  intros data. split; [reflexivity|]. split; [reflexivity|].
  exact (proj2 (proj2 (C9_passes_are_built_without_time_check
                         Fixture.utc data [Fixture.backwards_pass]
                         eq_refl eq_refl))).
Defined.

(** C9 (as stated) fails: a pass record whose set time is five minutes
    before its rise time is not rejected; the [SatellitePass] is built
    with [end_time < start_time], judged worth watching and given its
    commentary. *)
Lemma C9_backwards_pass_is_accepted :
  exists p,
    _get_satellite_passes Fixture.utc (Fixture.iss [Fixture.backwards_pass])
    = inr [p]
    /\ SatellitePass.end_time p < SatellitePass.start_time p
    /\ SatellitePass.worth_watching p = true
    /\ SatellitePass.commentary p
       = Some "Overhead pass! Excellent viewing. Standard duration (300s).".
Proof.
  eexists. split; [reflexivity|]. split; [reflexivity|]. split; reflexivity.
Qed.

(* ===================================================================== *)
(** ** The demo fixtures against the engine *)
(* ===================================================================== *)

Lemma run_get_demo_status (w : World) :
  fst (run _get_demo_status w)
  = SpaceWeatherStatus.make
      (clock w (reads w))
      (FFin 5)
      (Some double_5_3)
      [ SolarFlare.make
          (Datetime.minus (clock w (S (reads w))) (Datetime.make 0 3 0 0))
          "M" double_5_2 (Some "AR3590") None None ]
      []
      "minor" "moderate" "minor" (Some "visible_high_latitudes")
      "Status: Active geomagnetic conditions (Kp 5.0). Minor GPS degradation possible; most users unaffected.".
Proof. reflexivity. Qed.

(** C10 (as amended).  The demo fixtures are literals returned without
    calling the engine: in demo mode [get_current_status] returns
    [_get_demo_status] whatever the gathered slots hold.  Of their fields,
    the satellite risk of the demo status is the one
    [_assess_satellite_risk] gives for its own kp, flares and CMEs; the
    worth-watching flag of each demo pass is the one the worth-watching
    test gives for its own geometry; and the commentary of the second
    demo pass is the one [_generate_commentary] gives for its own
    elevation and duration. *)
Theorem C10_demo_fixtures_agreeing_fields :
  forall (w : World) (location : Location.t) (kp_slot : gathered pyfloat)
         (flares_slot : gathered (list SolarFlare.t))
         (cmes_slot : gathered (list CME.t)),
    let s := fst (run (get_current_status true kp_slot flares_slot cmes_slot)
                      w) in
    s = fst (run _get_demo_status w)
    /\ SpaceWeatherStatus.satellite_risk s
       = _assess_satellite_risk (SpaceWeatherStatus.kp_current s)
                                (SpaceWeatherStatus.recent_flares s)
                                (SpaceWeatherStatus.active_cmes s)
    /\ (exists first second,
          fst (run (_get_demo_passes location) w) = inr [first; second]
          /\ worth_watching (geometry_of first)
             = inr (SatellitePass.worth_watching first)
          /\ worth_watching (geometry_of second)
             = inr (SatellitePass.worth_watching second)
          /\ SatellitePass.commentary second
             = Some (_generate_commentary (geometry_of second)
                       (SatellitePass.worth_watching second))).
Proof.
  intros w location kp_slot flares_slot cmes_slot s. subst s.
  unfold get_current_status. rewrite run_get_demo_status.
  split; [reflexivity|]. split; [reflexivity|].
  unfold _get_demo_passes. run_steps. cbv zeta.
  rewrite !create_never_rejects.
  eexists. eexists. split; [reflexivity|]. repeat split.
Qed.

(** C10 (as stated) fails.  With the clock ticking by the millisecond
    from noon, the demo status (kp 5.0, one M-class flare three hours old,
    no CME) records a minor GPS risk where [_assess_gps_risk] gives
    moderate, aurora visible at high latitudes where
    [_assess_aurora_visibility] gives polar regions, a moderate HF-radio
    risk where [_assess_hf_radio_risk] gives minor, and a summary that
    [_generate_status_summary] returns neither for the recorded risks nor
    for the computed ones; and the first demo pass (63 degrees, 360 s)
    records a standard duration where [_generate_commentary] says long
    pass. *)
Lemma C10_demo_fixtures_disagree_with_engine :
  let w := Fixture.ticking Fixture.noon 1000 in
  let r := run _get_demo_status w in
  let s := fst r in
  let kp := SpaceWeatherStatus.kp_current s in
  let flares := SpaceWeatherStatus.recent_flares s in
  let cmes := SpaceWeatherStatus.active_cmes s in
  (SpaceWeatherStatus.gps_degradation_risk s = "minor"
   /\ _assess_gps_risk kp cmes = "moderate")
  /\ (SpaceWeatherStatus.aurora_visibility s = Some "visible_high_latitudes"
      /\ _assess_aurora_visibility kp = "visible_polar_regions")
  /\ (SpaceWeatherStatus.hf_radio_risk s = "moderate"
      /\ fst (run (_assess_hf_radio_risk flares) (snd r)) = "minor")
  /\ (SpaceWeatherStatus.summary s
      = "Status: Active geomagnetic conditions (Kp 5.0). Minor GPS degradation possible; most users unaffected."
      /\ _generate_status_summary kp flares cmes
           (SpaceWeatherStatus.gps_degradation_risk s)
           (SpaceWeatherStatus.hf_radio_risk s)
           (SpaceWeatherStatus.satellite_risk s)
         = "Status: Active geomagnetic conditions (Kp 5.0). Moderate HF radio disruption."
      /\ _generate_status_summary kp flares cmes
           (_assess_gps_risk kp cmes)
           (fst (run (_assess_hf_radio_risk flares) (snd r)))
           (_assess_satellite_risk kp flares cmes)
         = "Status: Active geomagnetic conditions (Kp 5.0). Moderate GPS degradation possible.")
  /\ (exists first second,
        fst (run (_get_demo_passes Fixture.greenwich) w) = inr [first; second]
        /\ SatellitePass.commentary first
           = Some "High pass, very good viewing. Standard duration (360s)."
        /\ _generate_commentary (geometry_of first)
                                (SatellitePass.worth_watching first)
           = "High pass, very good viewing. Long pass (360s).").
Proof.
  vm_compute. repeat split.
  eexists. eexists. split; [reflexivity|]. split; reflexivity.
Qed.

(* ===================================================================== *)
(** ** Where the two one-hour windows coincide *)
(* ===================================================================== *)





(* ===================================================================== *)
(** ** Further facts on thresholds *)
(* ===================================================================== *)

(** A float that reaches [n] reaches every smaller integer. *)
Lemma geb_int_weaken (x : pyfloat) (m n : Z) :
  m <= n -> (x >=! n)%pyf = true -> (x >=! m)%pyf = true.
Proof.
  intros Hmn. rewrite Zle_Qle in Hmn.
  unfold PyFloat.geb, PyFloat.of_int.
  destruct x as [ | [] | | q ]; simpl; try congruence;
    q_cases; try congruence; intros _; exfalso; lra.
Qed.

(** On a number, [<] is the negation of [>=]; on nan both are false. *)
Lemma ltb_is_not_geb (x : pyfloat) (n : Z) :
  x <> FNan -> (x <! n)%pyf = negb (x >=! n)%pyf.
Proof.
  intros Hx. unfold PyFloat.ltb, PyFloat.geb, PyFloat.of_int.
  destruct x as [ | [] | | q ]; simpl; try congruence;
    destruct (_ ?= _)%Q; reflexivity.
Qed.

Lemma nan_compares_false (n : Z) :
  (FNan <! n)%pyf = false /\ (FNan >=! n)%pyf = false.
Proof. split; reflexivity. Qed.

(** Contradictions between two threshold tests on the same float. *)
Ltac nested :=
  repeat match goal with
    | E : PyFloat.geb ?x (PyFloat.of_int ?n) = true,
      F : PyFloat.geb ?x (PyFloat.of_int ?m) = false |- _ =>
        rewrite (geb_int_weaken x m n ltac:(lia) E) in F; discriminate F
    end.

(** X1.  Without an X-class flare the three kp-driven ratings are ordered
    on their four-step scales: the satellite-operations risk is never
    above the aurora visibility, and the aurora visibility never above
    the GPS risk, for every kp (nan included) and every CME list. *)
Theorem risk_order_across_dimensions :
  forall (kp : pyfloat) (flares : list SolarFlare.t) (cmes : list CME.t),
    ~ Spec.some_x flares ->
    rank_le (Spec.risk_rank (_assess_satellite_risk kp flares cmes))
            (Spec.aurora_rank (_assess_aurora_visibility kp))
    /\ rank_le (Spec.aurora_rank (_assess_aurora_visibility kp))
               (Spec.risk_rank (_assess_gps_risk kp cmes)).
Proof.
  intros kp flares cmes Hx.
  assert (Ex : existsb (fun f => SolarFlare.class_type f =? "X")%string flares
               = false).
  { apply not_true_is_false. intros E. apply Hx. apply existsb_x. exact E. }
  assert (Eb : existsb (fun f => (SolarFlare.class_type f =? "X")%string
                                 && (SolarFlare.scale f >! 5)%pyf) flares
               = false).
  { apply not_true_is_false. intros E. apply Hx. apply existsb_big_x in E.
    destruct E as [f [Hin [Hc _]]]. exists f. split; assumption. }
  unfold _assess_satellite_risk, _assess_aurora_visibility, _assess_gps_risk.
  rewrite Ex, Eb.
  destruct (existsb CME.earth_directed cmes);
    thresholds kp; nested; vm_compute; split; lia.
Qed.

(** X1 at kp 6.0 with one M-class flare. *)
Lemma risk_order_across_dimensions_witness :
  let flares := [Fixture.flare "M" (PyFloat.of_int 3) Fixture.noon] in
  ~ Spec.some_x flares
  /\ rank_le (Spec.risk_rank (_assess_satellite_risk (FFin 6) flares []))
             (Spec.aurora_rank (_assess_aurora_visibility (FFin 6)))
  /\ rank_le (Spec.aurora_rank (_assess_aurora_visibility (FFin 6)))
             (Spec.risk_rank (_assess_gps_risk (FFin 6) [])).
Proof.
  intros flares.
  assert (H : ~ Spec.some_x flares).
  { intros [f [[E | []] Hc]]. subst f. discriminate Hc. }
  split; [exact H|].
  exact (risk_order_across_dimensions (FFin 6) flares [] H).
Defined.

(* ===================================================================== *)
(** ** The status summary *)
(* ===================================================================== *)

Lemma list_ascii_app (a b : string) :
  list_ascii_of_string (a ++ b)
  = (list_ascii_of_string a ++ list_ascii_of_string b)%list.
Proof.
  induction a as [|c a IH]; simpl; [reflexivity | now rewrite IH].
Qed.

(** A suffix test on [a ++ b] looks at [b] alone when [b] is long enough. *)
Lemma endswith_app (a b suf : string) :
  (length (list_ascii_of_string suf) <= length (list_ascii_of_string b))%nat ->
  PyStr.endswith (a ++ b) suf = PyStr.endswith b suf.
Proof.
  intros Hlen. unfold PyStr.endswith. rewrite list_ascii_app, length_app.
  set (la := list_ascii_of_string a) in *.
  set (lb := list_ascii_of_string b) in *.
  set (lf := list_ascii_of_string suf) in *.
  replace (length lf <=? length la + length lb)%nat with true
    by (symmetry; apply Nat.leb_le; lia).
  replace (length lf <=? length lb)%nat with true
    by (symmetry; apply Nat.leb_le; lia).
  rewrite skipn_app.
  rewrite (skipn_all2 la) by lia.
  replace (length la + length lb - length lf - length la)%nat
    with (length lb - length lf)%nat by lia.
  reflexivity.
Qed.

Lemma fstring_head (a b : string) (rest : list string) :
  PyStr.fstring (a :: b :: rest) = (a ++ PyStr.fstring (b :: rest))%string.
Proof. reflexivity. Qed.

Lemma mem_moderate_high (r : string) :
  PyStr.mem r ["moderate"; "high"] = true -> r = "moderate" \/ r = "high".
Proof.
  unfold PyStr.mem. simpl. rewrite !orb_true_iff, !String.eqb_eq.
  intuition discriminate.
Qed.

Ltac split_summary :=
  match goal with
  | |- context [PyStr.endswith (PyStr.fstring (?a :: ?b :: ?r)) _] =>
      rewrite (fstring_head a b r)
  end.

(** X2.  The summary ends with " Most users unaffected." exactly when
    neither the GPS risk nor the HF-radio risk handed to
    [_generate_status_summary] is moderate or high.  The satellite risk,
    the flares and the CMEs are not consulted: a high satellite risk
    alone still yields the reassuring sentence. *)
Theorem summary_reassures_unless_gps_or_hf :
  forall (kp : pyfloat) (flares : list SolarFlare.t) (cmes : list CME.t)
         (gps_risk hf_risk sat_risk : string),
    PyStr.endswith
      (_generate_status_summary kp flares cmes gps_risk hf_risk sat_risk)
      " Most users unaffected."
    = negb (PyStr.mem gps_risk ["moderate"; "high"])
      && negb (PyStr.mem hf_risk ["moderate"; "high"]).
Proof.
  intros kp flares cmes gps_risk hf_risk sat_risk.
  unfold _generate_status_summary. cbv zeta.
  destruct (PyStr.mem gps_risk ["moderate"; "high"]) eqn:Eg;
    destruct (PyStr.mem hf_risk ["moderate"; "high"]) eqn:Eh;
    try (apply mem_moderate_high in Eg; destruct Eg; subst gps_risk);
    try (apply mem_moderate_high in Eh; destruct Eh; subst hf_risk);
    cbn [app]; split_summary;
    (rewrite endswith_app by (vm_compute; lia)); vm_compute; reflexivity.
Qed.

Lemma not_ltb_cases (x : pyfloat) (n : Z) :
  (x <! n)%pyf = false -> (x >=! n)%pyf = true \/ x = FNan.
Proof.
  destruct x as [ | neg | | q ]; [right; reflexivity | | | ];
    intros H; left;
    rewrite ltb_is_not_geb in H by discriminate;
    now apply negb_false_iff in H.
Qed.

Lemma ltb_excludes (x : pyfloat) (m n : Z) :
  (x <! m)%pyf = true -> m <= n -> (x >=! n)%pyf = false /\ x <> FNan.
Proof.
  intros H Hmn.
  assert (Hx : x <> FNan) by (intros ->; discriminate H).
  split; [|exact Hx].
  rewrite ltb_is_not_geb in H by exact Hx. apply negb_true_iff in H.
  destruct (x >=! n)%pyf eqn:E; [|reflexivity].
  rewrite (geb_int_weaken x m n Hmn E) in H. discriminate H.
Qed.

Lemma aurora_mid_latitudes (kp : pyfloat) :
  _assess_aurora_visibility kp = "visible_mid_latitudes"
  <-> (kp >=! 8)%pyf = true.
Proof.
  unfold _assess_aurora_visibility.
  destruct (kp >=! 8)%pyf; [tauto|].
  destruct (kp >=! 6)%pyf; [split; discriminate|].
  destruct (kp >=! 4)%pyf; split; discriminate.
Qed.

Lemma aurora_unlikely (kp : pyfloat) :
  _assess_aurora_visibility kp = "unlikely" <-> (kp >=! 4)%pyf = false.
Proof.
  unfold _assess_aurora_visibility.
  destruct (kp >=! 8)%pyf eqn:E8.
  - rewrite (geb_int_weaken kp 4 8 ltac:(lia) E8). split; discriminate.
  - destruct (kp >=! 6)%pyf eqn:E6.
    + rewrite (geb_int_weaken kp 4 6 ltac:(lia) E6). split; discriminate.
    + destruct (kp >=! 4)%pyf; [split; discriminate | tauto].
Qed.

(** X3.  The band named at the head of the summary against the aurora
    rating of the same kp: the summary opens with "Strong geomagnetic
    storm" exactly when the aurora rating is visible_mid_latitudes or kp
    is nan, and with "Quiet geomagnetic conditions" exactly when the
    aurora rating is unlikely and kp is a number.  So the two agree on
    every number, and a nan kp is announced as a strong storm while the
    aurora rating is unlikely. *)
Theorem summary_band_against_aurora :
  forall (kp : pyfloat) (flares : list SolarFlare.t) (cmes : list CME.t)
         (gps_risk hf_risk sat_risk : string),
    let summary :=
      _generate_status_summary kp flares cmes gps_risk hf_risk sat_risk in
    (PyStr.startswith summary "Status: Strong geomagnetic storm (" = true
     <-> _assess_aurora_visibility kp = "visible_mid_latitudes" \/ kp = FNan)
    /\ (PyStr.startswith summary "Status: Quiet geomagnetic conditions ("
        = true
        <-> _assess_aurora_visibility kp = "unlikely" /\ kp <> FNan).
Proof.
  intros kp flares cmes gps_risk hf_risk sat_risk summary. subst summary.
  rewrite aurora_mid_latitudes, aurora_unlikely.
  unfold _generate_status_summary, PyStr.startswith. cbv zeta.
  destruct (PyStr.mem gps_risk ["moderate"; "high"]);
    destruct (PyStr.mem hf_risk ["moderate"; "high"]); cbn [app];
    repeat match goal with
      | |- context [if PyFloat.ltb kp ?c then _ else _] =>
          let L := fresh "L" in destruct (PyFloat.ltb kp c) eqn:L; cbv iota
      end.
  all: simpl String.prefix.
  all: repeat match goal with
         | H : PyFloat.ltb ?x (PyFloat.of_int ?m) = true |- _ =>
             pose proof (ltb_excludes x m 8 H ltac:(lia));
             pose proof (ltb_excludes x m m H ltac:(lia)); clear H
         | H : PyFloat.ltb ?x (PyFloat.of_int ?m) = false |- _ =>
             pose proof (not_ltb_cases x m H); clear H
         end.
  all: intuition (try congruence).
Qed.

(* ===================================================================== *)
(** ** The impact explanation *)
(* ===================================================================== *)

(** X4.  Whatever the status handed to [generate_impact_explanation]
    (its rating fields are free strings): the audience list is never
    empty, the severity is never SEVERE, at most four impact sentences
    are listed, and none is listed exactly when the GPS, HF-radio and
    satellite ratings are "none" and the aurora rating is "unlikely" (a
    missing aurora rating counts as an impact). *)
Theorem impact_explanation_invariants :
  forall (status : SpaceWeatherStatus.t),
    let e := generate_impact_explanation status in
    SpaceWeatherImpact.who_should_care e <> []
    /\ SpaceWeatherImpact.severity e <> SEVERE
    /\ (length (SpaceWeatherImpact.potential_impacts e) <= 4)%nat
    /\ (SpaceWeatherImpact.potential_impacts e = []
        <-> SpaceWeatherStatus.gps_degradation_risk status = "none"
            /\ SpaceWeatherStatus.hf_radio_risk status = "none"
            /\ SpaceWeatherStatus.satellite_risk status = "none"
            /\ SpaceWeatherStatus.aurora_visibility status = Some "unlikely").
Proof.
  intros status e. subst e. unfold generate_impact_explanation.
  cbn [SpaceWeatherImpact.who_should_care SpaceWeatherImpact.severity
       SpaceWeatherImpact.potential_impacts].
  split; [|split; [|split]].
  - destruct (PyStr.mem (SpaceWeatherStatus.gps_degradation_risk status) _);
      destruct (PyStr.mem (SpaceWeatherStatus.hf_radio_risk status) _);
      destruct (PyStr.mem (SpaceWeatherStatus.satellite_risk status) _);
      discriminate.
  - destruct (_ >=! 7)%pyf; [discriminate|].
    destruct (_ >=! 5)%pyf; discriminate.
  - destruct (negb _); destruct (negb _); destruct (negb _);
      destruct (opt_str_ne _ _); simpl; lia.
  - unfold opt_str_ne.
    destruct (SpaceWeatherStatus.aurora_visibility status) as [a|].
    + destruct (String.eqb_spec (SpaceWeatherStatus.gps_degradation_risk status)
                                "none");
        destruct (String.eqb_spec (SpaceWeatherStatus.hf_radio_risk status)
                                  "none");
        destruct (String.eqb_spec (SpaceWeatherStatus.satellite_risk status)
                                  "none");
        destruct (String.eqb_spec a "unlikely"); simpl;
        split; try discriminate; try tauto;
        try (intros [? [? [? Ha]]]; congruence).
      intros _. subst a. tauto.
    + destruct (negb _); destruct (negb _); destruct (negb _); simpl;
        split; try discriminate; intros [? [? [? Ha]]]; discriminate Ha.
Qed.

Lemma assess_gps_field kp flares cmes w :
  SpaceWeatherStatus.gps_degradation_risk (fst (run (assess kp flares cmes) w))
  = _assess_gps_risk kp cmes.
Proof. unfold assess. run_steps. reflexivity. Qed.

(** X5.  The explanation built from a status the assessment produced:
    its severity is HIGH exactly when kp >= 7, and then the GPS risk is
    high, drone operators are in the audience and the guidance is the
    delay-precision-work warning; a MODERATE severity comes with a
    moderate or high GPS risk and the same audience.  Guidance and
    severity go by the same kp bands on every number (the warning with
    HIGH, the monitoring advice with MODERATE, the routine advice with
    INFO), but not on nan: there the guidance is the strongest warning
    while the severity is INFO. *)
Theorem explanation_of_an_assessed_status :
  forall (kp : pyfloat) (flares : list SolarFlare.t) (cmes : list CME.t)
         (w : World),
    let s := fst (run (assess kp flares cmes) w) in
    let e := generate_impact_explanation s in
    let warning :=
      "Consider delaying precision GPS work. Satellite operators should monitor spacecraft health. Aurora photographers: good opportunity tonight!" in
    let monitoring :=
      "Monitor for GPS accuracy if doing precision work. Ham radio operators may experience propagation changes." in
    let routine := "Continue normal operations. Monitor for updates." in
    (SpaceWeatherImpact.severity e = HIGH <-> (kp >=! 7)%pyf = true)
    /\ (SpaceWeatherImpact.severity e = HIGH ->
        SpaceWeatherStatus.gps_degradation_risk s = "high"
        /\ In "Drone operators" (SpaceWeatherImpact.who_should_care e)
        /\ SpaceWeatherImpact.actionable_guidance e = warning)
    /\ (SpaceWeatherImpact.severity e = MODERATE ->
        PyStr.mem (SpaceWeatherStatus.gps_degradation_risk s)
                  ["moderate"; "high"] = true
        /\ In "Drone operators" (SpaceWeatherImpact.who_should_care e))
    /\ (kp <> FNan ->
        (SpaceWeatherImpact.actionable_guidance e = warning
         <-> SpaceWeatherImpact.severity e = HIGH)
        /\ (SpaceWeatherImpact.actionable_guidance e = monitoring
            <-> SpaceWeatherImpact.severity e = MODERATE)
        /\ (SpaceWeatherImpact.actionable_guidance e = routine
            <-> SpaceWeatherImpact.severity e = INFO))
    /\ (kp = FNan ->
        SpaceWeatherImpact.actionable_guidance e = warning
        /\ SpaceWeatherImpact.severity e = INFO).
Proof.
  intros kp flares cmes w s e warning monitoring routine.
  subst e warning monitoring routine.
  unfold generate_impact_explanation.
  cbn [SpaceWeatherImpact.who_should_care SpaceWeatherImpact.severity
       SpaceWeatherImpact.actionable_guidance].
  subst s. rewrite assess_gps_field, assess_kp_current.
  unfold _assess_gps_risk.
  split; [|split; [|split; [|split]]].
  - destruct (kp >=! 7)%pyf; [tauto|].
    destruct (kp >=! 5)%pyf; split; discriminate.
  - destruct (kp >=! 7)%pyf eqn:E7.
    + intros _. simpl orb. cbv iota.
      split; [reflexivity|]. split; [left; reflexivity|].
      destruct (kp <! 5)%pyf eqn:L5.
      { destruct (ltb_excludes kp 5 7 L5 ltac:(lia)); congruence. }
      destruct (kp <! 7)%pyf eqn:L7.
      { destruct (ltb_excludes kp 7 7 L7 ltac:(lia)); congruence. }
      reflexivity.
    + destruct (kp >=! 5)%pyf; discriminate.
  - destruct (kp >=! 7)%pyf eqn:E7; [discriminate|].
    destruct (kp >=! 5)%pyf eqn:E5; [|discriminate].
    intros _. simpl orb.
    destruct (existsb CME.earth_directed cmes);
      (split; [reflexivity | left; reflexivity]).
  - intros Hnum. rewrite !ltb_is_not_geb by exact Hnum.
    destruct (kp >=! 7)%pyf eqn:E7.
    + rewrite (geb_int_weaken kp 5 7 ltac:(lia) E7). simpl.
      repeat split; intros H; first [reflexivity | discriminate H].
    + destruct (kp >=! 5)%pyf; simpl;
        repeat split; intros H; first [reflexivity | discriminate H].
  - intros ->. split; reflexivity.
Qed.

(* ===================================================================== *)
(** ** Effects and the recent-flare window under a steady clock *)
(* ===================================================================== *)

(** X6.  What an assessment does to the world: [_assess_hf_radio_risk]
    reads the wall clock once per M- or X-class flare of the list (C-class
    flares cost no reading) and [assess] once more for the timestamp, so
    the timestamp of the status is the reading taken after the flare
    tests; neither writes to the log. *)
Theorem assessment_effects :
  forall (kp : pyfloat) (flares : list SolarFlare.t) (cmes : list CME.t)
         (w : World),
    snd (run (_assess_hf_radio_risk flares) w)
    = {| clock := clock w;
         reads := (reads w + strong_count flares)%nat;
         log := log w |}
    /\ snd (run (assess kp flares cmes) w)
       = {| clock := clock w;
            reads := S (reads w + strong_count flares);
            log := log w |}
    /\ SpaceWeatherStatus.timestamp (fst (run (assess kp flares cmes) w))
       = clock w (reads w + strong_count flares)%nat.
Proof.
  intros kp flares cmes w. split; [apply hf_radio_world|].
  unfold assess. run_steps. rewrite hf_radio_world. split; reflexivity.
Qed.

(** The test the service applies to one flare when the clock shows
    [now]. *)
Lemma recent_strong_steady (now : datetime) (flares : list SolarFlare.t) :
  forall (w : World),
    (forall n, clock w n = now) ->
    fst (run (recent_strong flares) w)
    = filter (fun f =>
                PyStr.mem (SolarFlare.class_type f) ["M"; "X"]
                && (seconds (Datetime.sub now (SolarFlare.timestamp f))
                    <? 3600))
             flares.
Proof.
  induction flares as [|f rest IH]; intros w Hclock; [reflexivity|].
  rewrite recent_strong_cons. cbn [filter].
  destruct (PyStr.mem (SolarFlare.class_type f) ["M"; "X"]).
  - run_steps. rewrite Hclock. rewrite IH by exact Hclock. reflexivity.
  - apply IH. exact Hclock.
Qed.

(** X8.  While the clock stands still, adding flares never lowers the
    HF-radio risk: if every flare of one list occurs in another, the risk
    of the first is at most the risk of the second (none < minor <
    moderate < high), whatever the order and the repetitions. *)
Theorem hf_radio_risk_grows_with_the_flare_list :
  forall (now : datetime) (w : World) (fewer more : list SolarFlare.t),
    (forall n, clock w n = now) ->
    incl fewer more ->
    Spec.le_by Spec.risk_rank
      (fst (run (_assess_hf_radio_risk fewer) w))
      (fst (run (_assess_hf_radio_risk more) w)).
Proof.
  intros now w fewer more Hclock Hincl.
  destruct (hf_is_a_level more w) as [n Hn].
  unfold Spec.le_by. rewrite Hn.
  destruct fewer as [|f rest].
  { simpl. lia. }
  assert (Hf : In f more) by (apply Hincl; left; reflexivity).
  destruct more as [|g more']; [destruct Hf|].
  revert Hn. unfold _assess_hf_radio_risk. run_steps.
  rewrite !(recent_strong_steady now) by exact Hclock.
  set (p := fun f0 : SolarFlare.t => _ && _).
  set (isx := fun f0 : SolarFlare.t => (SolarFlare.class_type f0 =? "X")%string).
  destruct (existsb isx (filter p (f :: rest))) eqn:Ex1.
  - apply existsb_exists in Ex1. destruct Ex1 as [x [Hx1 Hx2]].
    apply filter_In in Hx1. destruct Hx1 as [Hin Hp].
    assert (Ex2 : existsb isx (filter p (g :: more')) = true).
    { apply existsb_exists. exists x. split; [|exact Hx2].
      apply filter_In. split; [apply Hincl; exact Hin | exact Hp]. }
    rewrite Ex2. intros Hn. vm_compute in Hn. injection Hn as <-.
    vm_compute. lia.
  - destruct (filter p (f :: rest)) as [|y ys] eqn:F1.
    + destruct (existsb isx (filter p (g :: more')));
        [|destruct (filter p (g :: more'))];
        intros Hn; vm_compute in Hn; injection Hn as <-; vm_compute; lia.
    + assert (Hy : In y (filter p (f :: rest))) by (rewrite F1; left; reflexivity).
      apply filter_In in Hy. destruct Hy as [Hin Hp].
      assert (Hy2 : In y (filter p (g :: more'))).
      { apply filter_In. split; [apply Hincl; exact Hin | exact Hp]. }
      destruct (existsb isx (filter p (g :: more')));
        [|destruct (filter p (g :: more')); [destruct Hy2|]];
        intros Hn; vm_compute in Hn; injection Hn as <-; vm_compute; lia.
Qed.

(** X8 at noon: one M-class flare ten minutes old, then joined by an
    X-class flare five minutes old. *)
Lemma hf_radio_risk_grows_witness :
  let w := Fixture.ticking Fixture.noon 0 in
  let m := Fixture.flare "M" (PyFloat.of_int 2)
                         (Fixture.noon - Fixture.minutes 10) in
  let x := Fixture.flare "X" (PyFloat.of_int 1)
                         (Fixture.noon - Fixture.minutes 5) in
  (forall n, clock w n = Fixture.noon)
  /\ incl [m] [x; m]
  /\ Spec.le_by Spec.risk_rank
       (fst (run (_assess_hf_radio_risk [m]) w))
       (fst (run (_assess_hf_radio_risk [x; m]) w)).
Proof.
  intros w m x.
  assert (Hclock : forall n, clock w n = Fixture.noon)
    by (intros n; cbv delta [w Fixture.ticking]; cbn [clock]; lia).
  assert (Hincl : incl [m] [x; m])
    by (intros y [<- | []]; right; left; reflexivity).
  split; [exact Hclock|]. split; [exact Hincl|].
  exact (hf_radio_risk_grows_with_the_flare_list
           Fixture.noon w [m] [x; m] Hclock Hincl).
Defined.



(* ===================================================================== *)
(** ** The kp fetch and the live pipeline *)
(* ===================================================================== *)

(** X9.  What [_get_current_kp] makes of the outcome of its exchange.
    An exchange that raises yields 3.0 and one "Kp fetch failed" record.
    An answer that is not a list of at least two rows, or whose last row
    is not a list of at least two cells, yields the default 3.0 and
    leaves the log untouched: the substitution is silent.  Otherwise the
    result depends on the second cell of the last row alone: its
    conversion by [float] is returned and nothing is logged, or, when the
    conversion raises, 3.0 is returned and one "Kp fetch failed" record is
    logged.  The clock is never read. *)
Theorem kp_fetch_reads_the_last_row :
  forall (float_ : json -> PyException + pyfloat) (w : World),
    let failed (e : PyException) :=
      (FFin 3,
       {| clock := clock w; reads := reads w;
          log := (log w ++ [ {| level := "error"; event := "Kp fetch failed";
                                error := str_exc e |} ])%list |}) in
    (* the exchange raised *)
    (forall (e : PyException),
        run (_get_current_kp (kp_try_block float_ (inl e))) w = failed e)
    (* an answer that is not a list of at least two rows *)
    /\ (forall (data : json),
          (forall rows, data = JList rows -> (length rows <= 1)%nat) ->
          run (_get_current_kp (kp_try_block float_ (inr data))) w
          = (FFin 3, w))
    (* a last row that is not a list of at least two cells *)
    /\ (forall (rows : list json) (latest : json),
          rows <> [] ->
          (forall cells, latest = JList cells -> (length cells <= 1)%nat) ->
          run (_get_current_kp
                 (kp_try_block float_ (inr (JList (rows ++ [latest]))))) w
          = (FFin 3, w))
    (* a well-formed last row *)
    /\ (forall (rows : list json) (first second : json) (others : list json),
          rows <> [] ->
          run (_get_current_kp
                 (kp_try_block float_
                    (inr (JList (rows ++ [JList (first :: second :: others)])))))
              w
          = match float_ second with
            | inr v => (v, w)
            | inl e => failed e
            end).
Proof.
  intros float_ w failed.
  assert (Hw : forall v : pyfloat,
            (v, {| clock := clock w; reads := reads w;
                   log := (log w ++ [])%list |}) = (v, w)).
  { intros v. rewrite app_nil_r. destruct w; reflexivity. }
  split; [|split; [|split]].
  - intros e. reflexivity.
  - intros data Hshape. rewrite run_get_current_kp.
    destruct data as [ | b | n | x | s | rows | o ]; try apply Hw.
    unfold kp_try_block.
    specialize (Hshape rows eq_refl).
    destruct (Nat.ltb_spec 1 (length rows)); [lia|]. apply Hw.
  - intros rows latest Hrows Hshape. rewrite run_get_current_kp.
    unfold kp_try_block. rewrite length_app, last_last.
    destruct (Nat.ltb_spec 1 (length rows + length [latest]));
      [|apply Hw].
    destruct latest as [ | b | n | x | s | cells | o ]; try apply Hw.
    specialize (Hshape cells eq_refl).
    destruct (Nat.leb_spec 2 (length cells)); [lia|]. apply Hw.
  - intros rows first second others Hrows.
    rewrite run_get_current_kp.
    unfold kp_try_block. rewrite length_app, last_last.
    destruct (Nat.ltb_spec 1 (length rows + length [JList (first :: second :: others)])).
    + cbn [length Nat.leb nth].
      destruct (float_ second) as [e | v]; [reflexivity | apply Hw].
    + destruct rows; [congruence|]. simpl in *. lia.
Qed.


(** X10.  The live status with the fetchers the service ships.  The
    flare and CME fetchers return the empty list, so outside demo mode
    the status always has no flare and no CME and an HF-radio risk of
    "none"; the GPS and satellite risks are those of kp alone, high
    exactly from kp 7 and kp 8 on; the wall clock is read exactly once
    (for the timestamp) and at most one record is logged. *)
Theorem live_status_with_the_shipped_fetchers :
  forall (float_ : json -> PyException + pyfloat)
         (answer : PyException + json) (w : World),
    let r := run (get_current_status_awaiting float_ answer) w in
    let s := fst r in
    let kp := SpaceWeatherStatus.kp_current s in
    SpaceWeatherStatus.recent_flares s = []
    /\ SpaceWeatherStatus.active_cmes s = []
    /\ SpaceWeatherStatus.hf_radio_risk s = "none"
    /\ SpaceWeatherStatus.gps_degradation_risk s = _assess_gps_risk kp []
    /\ SpaceWeatherStatus.satellite_risk s = _assess_satellite_risk kp [] []
    /\ (SpaceWeatherStatus.satellite_risk s = "high" <-> (kp >=! 8)%pyf = true)
    /\ (SpaceWeatherStatus.gps_degradation_risk s = "high"
        <-> (kp >=! 7)%pyf = true)
    /\ reads (snd r) = S (reads w)
    /\ (length (log (snd r)) <= S (length (log w)))%nat.
Proof.
  intros float_ answer w r s kp. subst kp s r.
  unfold get_current_status_awaiting, _get_recent_flares, _get_active_cmes.
  rewrite run_bind, run_get_current_kp. run_steps.
  rewrite get_current_status_settled. simpl settled.
  set (kp := match kp_try_block float_ answer with
             | KpRead v => v | _ => FFin 3 end).
  unfold assess. run_steps. simpl.
  repeat split; try reflexivity.
  - unfold _assess_satellite_risk. simpl.
    destruct (kp >=! 8)%pyf; [reflexivity|].
    destruct (kp >=! 6)%pyf; [discriminate|].
    destruct (kp >=! 5)%pyf; discriminate.
  - unfold _assess_satellite_risk. simpl. intros ->. reflexivity.
  - unfold _assess_gps_risk. simpl.
    destruct (kp >=! 7)%pyf; [reflexivity|].
    destruct (kp >=! 5)%pyf; [discriminate|].
    destruct (kp >=! 4)%pyf; discriminate.
  - unfold _assess_gps_risk. simpl. intros ->. reflexivity.
  - rewrite !length_app. simpl.
    destruct (kp_try_block float_ answer); simpl; lia.
Qed.

(* ===================================================================== *)
(** ** Passes overhead *)
(* ===================================================================== *)

Lemma sat_run_ret {A : Type} (a : A) (sw : SatWorld) :
  sat_run (ret a) sw = (a, sw).
Proof. reflexivity. Qed.

Lemma sat_run_bind {A B : Type} (c : SatIO A) (f : A -> SatIO B)
    (sw : SatWorld) :
  sat_run (bind c f) sw
  = sat_run (f (fst (sat_run c sw))) (snd (sat_run c sw)).
Proof. unfold sat_run. simpl. destruct (runState c sw). reflexivity. Qed.

Lemma sat_run_logger (ev sat : string) (e : Failure) (sw : SatWorld) :
  sat_run (sat_logger_error ev sat e) sw
  = (tt, {| base := base sw;
            sat_log := (sat_log sw
                        ++ [ {| sat_event := ev; satellite := sat;
                                failure := e |} ])%list |}).
Proof. reflexivity. Qed.

Lemma overhead_loop_run (n2yo : N2YO.service) (utcoffset : Z -> option Z)
    (location : Location.t) (days : Z) (min_elevation : pyfloat)
    (catalogue : list (string * (string * string))) :
  forall (sw : SatWorld),
    sat_run (overhead_loop n2yo utcoffset location days min_elevation
                           catalogue) sw
    = (passes_received n2yo utcoffset location days min_elevation catalogue,
       {| base := base sw;
          sat_log := (sat_log sw
                      ++ failures_met n2yo utcoffset location days
                                      min_elevation catalogue)%list |}).
Proof.
  induction catalogue as [|[sat_key [norad_id name]] rest IH]; intros sw.
  - simpl. rewrite app_nil_r. destruct sw; reflexivity.
  - cbn [overhead_loop passes_received failures_met flat_map fst snd].
    fold (passes_received n2yo utcoffset location days min_elevation rest).
    fold (failures_met n2yo utcoffset location days min_elevation rest).
    destruct (_get_satellite_passes_of n2yo utcoffset norad_id location days
                                       min_elevation) as [e | sat_passes].
    + rewrite sat_run_bind, sat_run_logger. cbn [fst snd].
      rewrite IH. cbn [base sat_log]. rewrite <- app_assoc. reflexivity.
    + rewrite sat_run_bind, IH. cbn [fst snd]. rewrite sat_run_ret.
      reflexivity.
Qed.

Lemma insert_by_start_perm (p : SatellitePass.t) (l : list SatellitePass.t) :
  Permutation (insert_by_start p l) (p :: l).
Proof.
  induction l as [|q rest IH]; simpl; [reflexivity|].
  destruct (_ <=? _); [reflexivity|].
  rewrite IH. apply perm_swap.
Qed.

Lemma sort_by_start_perm (l : list SatellitePass.t) :
  Permutation (sort_by_start l) l.
Proof.
  induction l as [|p rest IH]; simpl; [reflexivity|].
  rewrite insert_by_start_perm. now constructor.
Qed.

Lemma insert_by_start_sorted (p : SatellitePass.t) (l : list SatellitePass.t) :
  StronglySorted starts_no_later l ->
  StronglySorted starts_no_later (insert_by_start p l).
Proof.
  induction 1 as [|q rest Hs IH Hq]; simpl.
  - repeat constructor.
  - destruct (Z.leb_spec (SatellitePass.start_time p)
                         (SatellitePass.start_time q)) as [Hle | Hgt].
    + constructor; [constructor; assumption|].
      constructor; [exact Hle|].
      eapply Forall_impl; [|exact Hq].
      unfold starts_no_later. intros r Hr. lia.
    + constructor; [exact IH|].
      eapply Permutation_Forall;
        [symmetry; apply insert_by_start_perm|].
      constructor; [unfold starts_no_later; lia | exact Hq].
Qed.

Lemma sort_by_start_sorted (l : list SatellitePass.t) :
  StronglySorted starts_no_later (sort_by_start l).
Proof.
  induction l as [|p rest IH]; simpl; [constructor|].
  now apply insert_by_start_sorted.
Qed.

(** Stability: passes that start together keep their order. *)
Lemma insert_by_start_stable (t : Z) (p : SatellitePass.t)
    (l : list SatellitePass.t) :
  StronglySorted starts_no_later l ->
  filter (fun q => SatellitePass.start_time q =? t) (insert_by_start p l)
  = filter (fun q => SatellitePass.start_time q =? t) (p :: l).
Proof.
  induction 1 as [|q rest Hs IH Hq]; [reflexivity|].
  cbn [insert_by_start].
  destruct (Z.leb_spec (SatellitePass.start_time p)
                       (SatellitePass.start_time q)) as [Hle | Hgt];
    [reflexivity|].
  cbn [filter] in *. rewrite IH.
  destruct (Z.eqb_spec (SatellitePass.start_time p) t) as [Ep | Np];
    [|reflexivity].
  destruct (Z.eqb_spec (SatellitePass.start_time q) t) as [Eq | Nq];
    [lia | reflexivity].
Qed.

Lemma sort_by_start_stable (t : Z) (l : list SatellitePass.t) :
  filter (fun q => SatellitePass.start_time q =? t) (sort_by_start l)
  = filter (fun q => SatellitePass.start_time q =? t) l.
Proof.
  induction l as [|p rest IH]; [reflexivity|].
  cbn [sort_by_start fold_right].
  rewrite insert_by_start_stable by apply sort_by_start_sorted.
  cbn [filter]. fold (sort_by_start rest). rewrite IH. reflexivity.
Qed.

Lemma overhead_live_run (n2yo : N2YO.service) (utcoffset : Z -> option Z)
    (location : Location.t) (time_window_hours : Z)
    (min_elevation : pyfloat) (sw : SatWorld) :
  sat_run (get_overhead_satellites false n2yo utcoffset location
             time_window_hours min_elevation) sw
  = (inr (sort_by_start
            (passes_received n2yo utcoffset location
                             (days_of_window time_window_hours) min_elevation
                             SATELLITES)),
     {| base := base sw;
        sat_log := (sat_log sw
                    ++ failures_met n2yo utcoffset location
                         (days_of_window time_window_hours) min_elevation
                         SATELLITES)%list |}).
Proof.
  unfold get_overhead_satellites.
  rewrite sat_run_bind, overhead_loop_run. cbn [fst snd].
  rewrite sat_run_ret. reflexivity.
Qed.

(** X12.  Outside demo mode [get_overhead_satellites] never fails: it
    returns the passes of every catalogue satellite whose pass request
    returned, all of them and no other, sorted by non-decreasing start
    time, passes with the same start time keeping the order in which they
    were received.  A pass request returns exactly when the exchange
    succeeded, the passes of the answer are not null and every record is
    readable (neither its worth-watching test nor one of its three
    conversions raises).  A satellite whose pass request raised
    contributes no pass and exactly one "Failed to get passes" record, in
    catalogue order, and does not disturb the others; the clock is not
    read. *)
Theorem overhead_passes_are_sorted_and_complete :
  forall (n2yo : N2YO.service) (utcoffset : Z -> option Z)
         (location : Location.t)
         (time_window_hours : Z) (min_elevation : pyfloat) (sw : SatWorld),
    let r := sat_run (get_overhead_satellites false n2yo utcoffset location
                        time_window_hours min_elevation) sw in
    let days := days_of_window time_window_hours in
    let received :=
      passes_received n2yo utcoffset location days min_elevation SATELLITES in
    (exists found,
      fst r = inr found
      /\ StronglySorted starts_no_later found
      /\ Permutation found received
      /\ (forall t,
            filter (fun q => SatellitePass.start_time q =? t) found
            = filter (fun q => SatellitePass.start_time q =? t) received)
      /\ base (snd r) = base sw
      /\ sat_log (snd r)
         = (sat_log sw
            ++ failures_met n2yo utcoffset location days min_elevation
                            SATELLITES)%list)
    /\ (forall norad_id,
          (exists sat_passes,
              _get_satellite_passes_of n2yo utcoffset norad_id location days
                                       min_elevation = inr sat_passes)
          <-> exists data todo,
                n2yo (N2YO.make norad_id location days min_elevation)
                = inr data
                /\ entry_get_default (PassesData.passes data) [] = Some todo
                /\ forallb (readable utcoffset) todo = true).
Proof.
  intros n2yo utcoffset location time_window_hours min_elevation sw
         r days received.
  split.
  - subst r. rewrite overhead_live_run. cbn [fst snd base sat_log].
    exists (sort_by_start received). split; [reflexivity|].
    split; [apply sort_by_start_sorted|].
    split; [apply sort_by_start_perm|].
    split; [intros t; apply sort_by_start_stable|].
    split; reflexivity.
  - intros norad_id.
    unfold _get_satellite_passes_of, _get_satellite_passes.
    destruct (n2yo (N2YO.make norad_id location days min_elevation))
      as [e | data].
    + split; [intros [sat_passes H]; discriminate H|].
      intros [data [todo [H _]]]. discriminate H.
    + destruct (entry_get_default (PassesData.passes data) [])
        as [todo|] eqn:Epasses.
      * split.
        -- intros [sat_passes H]. exists data, todo.
           split; [reflexivity|]. split; [exact Epasses|].
           exact (build_passes_only_readable _ _ _ _ H).
        -- intros [data' [todo' [Hd [Ht Hr]]]].
           injection Hd as <-. rewrite Epasses in Ht. injection Ht as <-.
           exact (build_passes_readable _ _ _ Hr).
      * split; [intros [sat_passes H]; discriminate H|].
        intros [data' [todo' [Hd [Ht _]]]].
        injection Hd as <-. rewrite Epasses in Ht. discriminate Ht.
Qed.

Lemma hd_filter_sorted (l : list SatellitePass.t) (f : SatellitePass.t -> bool) :
  StronglySorted starts_no_later l ->
  match hd_error (filter f l) with
  | None => forall q, In q l -> f q = false
  | Some p =>
      In p l /\ f p = true
      /\ forall q, In q l -> f q = true -> starts_no_later p q
  end.
Proof.
  induction 1 as [|p rest Hs IH Hp]; [intros q []|].
  cbn [filter]. destruct (f p) eqn:Ep.
  - cbn [hd_error]. split; [left; reflexivity|]. split; [exact Ep|].
    intros q [<- | Hq] _; [unfold starts_no_later; lia|].
    rewrite Forall_forall in Hp. apply Hp. exact Hq.
  - destruct (hd_error (filter f rest)) as [p'|].
    + destruct IH as [Hin [Hf Hmin]]. split; [right; exact Hin|].
      split; [exact Hf|].
      intros q [<- | Hq] Hfq; [congruence | apply Hmin; assumption].
    + intros q [<- | Hq]; [exact Ep | apply IH; exact Hq].
Qed.

(** X13.  Outside demo mode [get_next_iss_pass] never fails and asks
    for two days.  It returns a pass only if the name of the pass
    contains "ISS", and then the one that starts first among the received
    passes so named; it returns nothing exactly when no received pass has
    "ISS" in its name, whatever the catalogue key under which it was
    requested. *)
Theorem next_iss_pass_is_the_earliest_named_iss :
  forall (n2yo : N2YO.service) (utcoffset : Z -> option Z) (location : Location.t)
         (min_elevation : pyfloat) (sw : SatWorld),
    let received :=
      passes_received n2yo utcoffset location 2 min_elevation SATELLITES in
    match fst (sat_run (get_next_iss_pass false n2yo utcoffset location
                          min_elevation) sw) with
    | inl _ => False
    | inr None => forall q, In q received -> is_iss q = false
    | inr (Some p) =>
        In p received /\ is_iss p = true
        /\ forall q, In q received -> is_iss q = true -> starts_no_later p q
    end.
Proof.
  intros n2yo utcoffset location min_elevation sw received.
  unfold get_next_iss_pass. rewrite sat_run_bind.
  rewrite overhead_live_run. cbn [fst snd].
  change (days_of_window 48) with 2. fold received.
  rewrite sat_run_ret. cbn [fst].
  pose proof (sort_by_start_perm received) as Hp.
  pose proof (hd_filter_sorted (sort_by_start received) is_iss
                (sort_by_start_sorted received)) as Hhd.
  unfold is_iss in Hhd at 1.
  destruct (hd_error _) as [p|].
  - destruct Hhd as [Hin [Hf Hmin]].
    split; [eapply Permutation_in; [exact Hp | exact Hin]|].
    split; [exact Hf|].
    intros q Hq Hfq. apply Hmin; [|exact Hfq].
    eapply Permutation_in; [symmetry; exact Hp | exact Hq].
  - intros q Hq. apply Hhd.
    eapply Permutation_in; [symmetry; exact Hp | exact Hq].
Qed.

(** X11.  The time window reaches the N2YO request as a number of whole
    days, [time_window_hours // 24 or 1]: for a window of at least one
    hour that number is at least 1, it is the window rounded down to
    whole days from 24 hours on (so up to 23 hours of the window are not
    asked for), and [get_overhead_satellites] cannot tell a window from
    the same window rounded down: below 48 hours it behaves as for 24. *)
Theorem window_is_counted_in_whole_days :
  forall (time_window_hours : Z),
    1 <= time_window_hours ->
    let days := days_of_window time_window_hours in
    1 <= days
    /\ days = Z.max 1 (time_window_hours / 24)
    /\ (24 <= time_window_hours ->
        24 * days <= time_window_hours < 24 * days + 24)
    /\ (forall DEMO_MODE n2yo utcoffset location min_elevation,
          get_overhead_satellites DEMO_MODE n2yo utcoffset location
                                  time_window_hours min_elevation
          = get_overhead_satellites DEMO_MODE n2yo utcoffset location
                                    (24 * days) min_elevation).
Proof.
  intros h Hh days.
  assert (Hdiv : 0 <= h / 24) by (apply Z.div_pos; lia).
  assert (Hdays : days = Z.max 1 (h / 24)).
  { subst days. unfold days_of_window. cbv zeta.
    destruct (Z.eqb_spec (h / 24) 0); lia. }
  split; [lia|]. split; [exact Hdays|]. split.
  - intros H24.
    assert (1 <= h / 24) by (apply Z.div_le_lower_bound; lia).
    pose proof (Z.div_mod h 24 ltac:(lia)).
    pose proof (Z.mod_pos_bound h 24 ltac:(lia)). lia.
  - intros DEMO_MODE n2yo utcoffset location min_elevation.
    unfold get_overhead_satellites.
    replace (days_of_window (24 * days)) with (days_of_window h);
      [reflexivity|].
    fold days. unfold days_of_window. cbv zeta.
    replace (24 * days / 24) with days
      by (rewrite Z.mul_comm, Z.div_mul; lia).
    destruct (Z.eqb_spec days 0); lia.
Qed.

(** X11 at a window of 47 hours: one day is asked for. *)
Lemma window_is_counted_in_whole_days_witness :
  1 <= 47
  /\ days_of_window 47 = 1
  /\ (forall DEMO_MODE n2yo utcoffset location min_elevation,
        get_overhead_satellites DEMO_MODE n2yo utcoffset location 47
                                min_elevation
        = get_overhead_satellites DEMO_MODE n2yo utcoffset location 24
                                  min_elevation).
Proof.
  split; [lia|]. split; [reflexivity|].
  exact (proj2 (proj2 (proj2 (window_is_counted_in_whole_days 47
                                ltac:(lia))))).
Defined.

(* ===================================================================== *)
(** ** Satellite profiles *)
(* ===================================================================== *)

Lemma ascii_lower_idempotent (c : ascii) :
  PyStr.ascii_lower (PyStr.ascii_lower c) = PyStr.ascii_lower c.
Proof. destruct c as [[] [] [] [] [] [] [] []]; reflexivity. Qed.

Lemma lower_idempotent (s : string) : PyStr.lower (PyStr.lower s) = PyStr.lower s.
Proof.
  induction s as [|c s IH]; simpl; [reflexivity|].
  now rewrite ascii_lower_idempotent, IH.
Qed.

Lemma prefix_app_left (a b h : string) :
  String.prefix (a ++ b) h = true -> String.prefix a h = true.
Proof.
  revert h. induction a as [|c a IH]; intros h.
  - destruct h; reflexivity.
  - destruct h as [|d h]; simpl; [discriminate|].
    destruct (ascii_dec c d); [apply IH | discriminate].
Qed.

(** Where a text occurs, so does each of its beginnings. *)
Lemma contains_app_left (a b h : string) :
  PyStr.contains (a ++ b) h = true -> PyStr.contains a h = true.
Proof.
  induction h as [|d h IH]; cbn [PyStr.contains];
    rewrite !orb_true_iff; intros [H | H].
  - left. eapply prefix_app_left. exact H.
  - discriminate H.
  - left. eapply prefix_app_left. exact H.
  - right. apply IH. exact H.
Qed.

(** X14.  [get_satellite_profile] on ASCII names.  The answer depends on
    the query through its lower-cased form only, so two spellings that
    differ by case get the same profile.  No profile is returned exactly
    when none of "iss", "hubble", "hst", "tiangong", "tianhe" occurs in
    the lower-cased query; a query in which "iss" occurs anywhere (inside
    another word too) gets the International Space Station, whatever
    else it mentions; and every profile returned is in low Earth orbit
    with a satellite id that prints as its NORAD id. *)
Theorem satellite_profile_lookup :
  forall (satellite_name : string),
    let query := PyStr.lower satellite_name in
    (forall other, PyStr.lower other = query ->
                   get_satellite_profile other
                   = get_satellite_profile satellite_name)
    /\ (get_satellite_profile satellite_name = None
        <-> PyStr.any_in ["iss"; "hubble"; "hst"; "tiangong"; "tianhe"] query
            = false)
    /\ (PyStr.contains "iss" query = true ->
        option_map SatelliteProfile.name
                   (get_satellite_profile satellite_name)
        = Some "International Space Station")
    /\ (forall profile,
          get_satellite_profile satellite_name = Some profile ->
          SatelliteProfile.orbit_type profile = LEO
          /\ PyStr.of_int (SatelliteProfile.satellite_id profile)
             = SatelliteProfile.norad_id profile).
Proof.
  intros satellite_name query.
  assert (Hget : forall s,
            get_satellite_profile s
            = if PyStr.contains "iss" (PyStr.lower s)
                 || PyStr.contains "iss (zarya)" (PyStr.lower s)
              then profile_of "ISS" profiles
              else if PyStr.contains "hubble" (PyStr.lower s)
                      || PyStr.contains "hst" (PyStr.lower s)
              then profile_of "HUBBLE" profiles
              else if PyStr.contains "tiangong" (PyStr.lower s)
                      || PyStr.contains "tianhe" (PyStr.lower s)
              then profile_of "TIANGONG" profiles
              else None).
  { intros s. unfold get_satellite_profile, SATELLITES.
    cbn [find_satellite].
    change (PyStr.lower "ISS") with "iss".
    change (PyStr.lower "ISS (ZARYA)") with "iss (zarya)".
    change (PyStr.lower "HUBBLE") with "hubble".
    change (PyStr.lower "HST") with "hst".
    change (PyStr.lower "TIANGONG") with "tiangong".
    change (PyStr.lower "TIANHE") with "tianhe".
    destruct (_ || _); [reflexivity|].
    destruct (_ || _); [reflexivity|].
    destruct (_ || _); reflexivity. }
  split; [|split; [|split]].
  - intros other Hother. rewrite !Hget, Hother. reflexivity.
  - rewrite Hget. fold query. unfold PyStr.any_in. cbn [existsb].
    destruct (PyStr.contains "iss" query) eqn:E1; cbn [orb].
    { split; discriminate. }
    destruct (PyStr.contains "iss (zarya)" query) eqn:E2; cbn [orb].
    { apply (contains_app_left "iss" " (zarya)") in E2. congruence. }
    destruct (PyStr.contains "hubble" query); cbn [orb];
      [split; discriminate|].
    destruct (PyStr.contains "hst" query); cbn [orb];
      [split; discriminate|].
    destruct (PyStr.contains "tiangong" query); cbn [orb];
      [split; discriminate|].
    destruct (PyStr.contains "tianhe" query); cbn [orb];
      [split; discriminate | tauto].
  - intros Hiss. rewrite Hget. fold query. rewrite Hiss. reflexivity.
  - intros profile. rewrite Hget.
    destruct (_ || _).
    { intros H. injection H as <-. split; reflexivity. }
    destruct (_ || _).
    { intros H. injection H as <-. split; reflexivity. }
    destruct (_ || _); [|discriminate].
    intros H. injection H as <-. split; reflexivity.
Qed.

(* ===================================================================== *)
(** ** The demo passes and the commentary of built passes *)
(* ===================================================================== *)

Lemma tonight_is_ahead (now : datetime) :
  let tonight := replace_19_41 now in
  let start := if tonight <? now
               then Datetime.plus tonight (Datetime.make 1 0 0 0)
               else tonight in
  now <= start < now + Datetime.us_per_day
  /\ start mod Datetime.us_per_day
     = (19 * 3600 + 41 * 60) * Datetime.us_per_second.
Proof.
  intros tonight start. subst start tonight.
  unfold replace_19_41, Datetime.plus.
  change (Datetime.to_us (Datetime.make 1 0 0 0)) with Datetime.us_per_day.
  change ((19 * 3600 + 41 * 60) * Datetime.us_per_second) with 70860000000.
  change Datetime.us_per_day with 86400000000.
  pose proof (Z.div_mod now 86400000000 ltac:(lia)) as Hdm.
  pose proof (Z.mod_pos_bound now 86400000000 ltac:(lia)) as Hb.
  set (q := now / 86400000000) in *. set (r := now mod 86400000000) in *.
  destruct (Z.ltb_spec (q * 86400000000 + 70860000000) now).
  - split; [lia|].
    replace (q * 86400000000 + 70860000000 + 86400000000)
      with (70860000000 + (q + 1) * 86400000000) by lia.
    rewrite Z.mod_add by lia. reflexivity.
  - split; [lia|].
    replace (q * 86400000000 + 70860000000)
      with (70860000000 + q * 86400000000) by lia.
    rewrite Z.mod_add by lia. reflexivity.
Qed.

(** X15.  The demo passes against the clock.  Whatever the time read,
    the first demo pass starts at 19:41, today if that is not yet past
    and tomorrow otherwise: never in the past and less than a day ahead.
    The second starts thirteen hours later.  For both, the maximum lies
    strictly between start and end and the end is exactly
    [duration_seconds] after the start.  The clock is read once. *)
Theorem demo_passes_lie_ahead :
  forall (w : World) (location : Location.t),
    let now := clock w (reads w) in
    exists first second,
      fst (run (_get_demo_passes location) w) = inr [first; second]
      /\ now <= SatellitePass.start_time first < now + Datetime.us_per_day
      /\ SatellitePass.start_time first mod Datetime.us_per_day
         = (19 * 3600 + 41 * 60) * Datetime.us_per_second
      /\ SatellitePass.start_time second
         = SatellitePass.start_time first + Fixture.hours 13
      /\ (forall p, In p [first; second] ->
            SatellitePass.start_time p < SatellitePass.max_elevation_time p
            < SatellitePass.end_time p
            /\ SatellitePass.end_time p - SatellitePass.start_time p
               = SatellitePass.duration_seconds p * Datetime.us_per_second)
      /\ reads (snd (run (_get_demo_passes location) w)) = S (reads w).
Proof.
  intros w location now.
  unfold _get_demo_passes. run_steps. cbv zeta.
  rewrite !create_never_rejects. fold now.
  pose proof (tonight_is_ahead now) as Hahead. cbv zeta in Hahead.
  set (start := if replace_19_41 now <? now
                then Datetime.plus (replace_19_41 now) (Datetime.make 1 0 0 0)
                else replace_19_41 now) in *.
  eexists. eexists. split; [reflexivity|].
  cbn [SatellitePass.start_time SatellitePass.max_elevation_time
       SatellitePass.end_time SatellitePass.duration_seconds].
  split; [apply Hahead|]. split; [apply Hahead|].
  unfold Datetime.plus, Fixture.hours.
  change (Datetime.to_us (Datetime.make 0 13 0 0)) with 46800000000.
  change (Datetime.to_us (Datetime.make 0 13 2 0)) with 46920000000.
  change (Datetime.to_us (Datetime.make 0 13 5 0)) with 47100000000.
  change (Datetime.to_us (Datetime.make 0 0 3 0)) with 180000000.
  change (Datetime.to_us (Datetime.make 0 0 6 0)) with 360000000.
  change Datetime.us_per_second with 1000000.
  split; [lia|]. split; [|reflexivity].
  intros p [<- | [<- | []]];
    cbn [SatellitePass.start_time SatellitePass.max_elevation_time
         SatellitePass.end_time SatellitePass.duration_seconds]; lia.
Qed.

Lemma gtb_int_weaken (x : pyfloat) (m n : Z) :
  m <= n -> (x >! n)%pyf = true -> (x >! m)%pyf = true.
Proof.
  intros Hmn. rewrite Zle_Qle in Hmn.
  unfold PyFloat.gtb, PyFloat.of_int.
  destruct x as [ | [] | | q ]; simpl; try congruence;
    q_cases; try congruence; intros _; exfalso; lra.
Qed.

(** X16.  Verdict and commentary of a pass built by the live loop go
    together.  The commentary is the low-pass sentence exactly when the
    pass is not worth watching.  A commentary that opens with "Moderate
    pass" belongs to a pass at or below 30 degrees that is worth watching
    for its brightness alone (a magnitude below 0 is present); one that
    opens with "Good pass" to a pass above 40 degrees or a bright one;
    and a pass without magnitude that is worth watching opens with the
    overhead, high or good clause, never with the moderate one. *)
Theorem commentary_of_a_built_pass :
  forall (utcoffset : Z -> option Z) (data : PassesData.t) (pd : PassData.t)
         (p : SatellitePass.t),
    build_pass utcoffset data pd = inr p ->
    exists text,
      SatellitePass.commentary p = Some text
      /\ (text = "Low pass, may not be easily visible."
          <-> SatellitePass.worth_watching p = false)
      /\ (PyStr.startswith text "Moderate pass" = true ->
          Spec.bright (SatellitePass.magnitude p)
          /\ (SatellitePass.max_elevation p >! 30)%pyf = false)
      /\ (PyStr.startswith text "Good pass" = true ->
          Spec.gt (SatellitePass.max_elevation p) 40
          \/ Spec.bright (SatellitePass.magnitude p))
      /\ (SatellitePass.magnitude p = None ->
          SatellitePass.worth_watching p = true ->
          PyStr.startswith text "Overhead pass!" = true
          \/ PyStr.startswith text "High pass" = true
          \/ PyStr.startswith text "Good pass" = true).
Proof.
  intros utcoffset data pd p Hbuilt.
  destruct (build_pass_inv _ _ _ _ Hbuilt)
    as [[_ [_ [_ [Hw [Hc [Hel [Hmag _]]]]]]] _].
  exists (_generate_commentary pd (SatellitePass.worth_watching p)).
  split; [exact Hc|].
  rewrite Hel, Hmag.
  pose proof (proj1 (worth_watching_true pd)) as Hrule.
  rewrite Hw in Hrule.
  unfold Spec.worth_watching, Spec.gt in Hrule.
  assert (Hnone : entry_get (PassData.mag pd) = None ->
                  SatellitePass.worth_watching p = true ->
                  (PassData.maxEl pd >! 40)%pyf = true).
  { intros Hm Hworth. rewrite Hworth in Hrule.
    destruct (Hrule eq_refl) as [H | [m [H _]]]; [exact H|].
    rewrite Hm in H. discriminate H. }
  pose proof (gtb_int_weaken (PassData.maxEl pd) 30 40 ltac:(lia)) as H30.
  unfold _generate_commentary, PyStr.startswith, Spec.gt.
  destruct (SatellitePass.worth_watching p) eqn:Ew; cbn [negb].
  - specialize (Hrule eq_refl).
    destruct (PassData.maxEl pd >! 70)%pyf eqn:E70;
      [|destruct (PassData.maxEl pd >! 50)%pyf eqn:E50;
        [|destruct (PassData.maxEl pd >! 30)%pyf eqn:E30]];
      destruct (PassData.duration pd <? 180);
      try destruct (PassData.duration pd <? 360);
      simpl;
      (split; [split; discriminate|]);
      (split; [try discriminate|]);
      try (split; [try discriminate; intros _; exact Hrule|]);
      try (intros _ _; tauto);
      try (intros _; destruct Hrule as [H40 | Hb];
           [discriminate (H30 H40) | split; [exact Hb | reflexivity]]);
      try (intros Hm _; discriminate (H30 (Hnone Hm eq_refl))).
  - simpl. split; [split; reflexivity|].
    split; [discriminate|]. split; [discriminate|].
    intros _ H. discriminate H.
Qed.

(** X16 at a bright pass of 20 degrees that lasts 400 seconds. *)
Lemma commentary_of_a_built_pass_witness :
  let pd := Fixture.pass_data (PyFloat.of_int 20) 400 (Some (FFin (-1))) in
  exists p,
    build_pass Fixture.utc (Fixture.iss [pd]) pd = inr p
    /\ exists text,
         SatellitePass.commentary p = Some text
         /\ (text = "Low pass, may not be easily visible."
             <-> SatellitePass.worth_watching p = false)
         /\ (PyStr.startswith text "Moderate pass" = true ->
             Spec.bright (SatellitePass.magnitude p)
             /\ (SatellitePass.max_elevation p >! 30)%pyf = false)
         /\ (PyStr.startswith text "Good pass" = true ->
             Spec.gt (SatellitePass.max_elevation p) 40
             \/ Spec.bright (SatellitePass.magnitude p))
         /\ (SatellitePass.magnitude p = None ->
             SatellitePass.worth_watching p = true ->
             PyStr.startswith text "Overhead pass!" = true
             \/ PyStr.startswith text "High pass" = true
             \/ PyStr.startswith text "Good pass" = true).
Proof.
  intros pd. eexists. split; [reflexivity|].
  exact (commentary_of_a_built_pass Fixture.utc (Fixture.iss [pd]) pd _
           eq_refl).
Defined.

(* ===================================================================== *)
(** ** The knowledge-base search of the agent *)
(* ===================================================================== *)

Lemma prefix_app_right (a b h : string) :
  String.prefix (a ++ b) h = true -> PyStr.contains b h = true.
Proof.
  revert h. induction a as [|c a IH]; intros h; cbn [String.append].
  - intros H. destruct h; cbn [PyStr.contains]; rewrite H; reflexivity.
  - destruct h as [|d h]; cbn [String.prefix]; [discriminate|].
    destruct (ascii_dec c d); [|discriminate].
    intros H. cbn [PyStr.contains]. rewrite (IH h H). apply orb_true_r.
Qed.

(** Where a text occurs, so does each of its endings. *)
Lemma contains_app_right (a b h : string) :
  PyStr.contains (a ++ b) h = true -> PyStr.contains b h = true.
Proof.
  induction h as [|d h IH]; intros H.
  - cbn [PyStr.contains] in H. rewrite orb_false_r in H.
    eapply prefix_app_right. exact H.
  - cbn [PyStr.contains] in H. apply orb_true_iff in H. destruct H as [H | H].
    + eapply prefix_app_right. exact H.
    + cbn [PyStr.contains]. rewrite (IH H). apply orb_true_r.
Qed.

Lemma lower_app (a b : string) :
  PyStr.lower (a ++ b) = (PyStr.lower a ++ PyStr.lower b)%string.
Proof.
  induction a as [|c a IH]; simpl; [reflexivity | now rewrite IH].
Qed.

Lemma prefix_hay_app (w h t : string) :
  String.prefix w h = true -> String.prefix w (h ++ t) = true.
Proof.
  revert h. induction w as [|c w IH]; intros h.
  - intros _. destruct (h ++ t)%string; reflexivity.
  - destruct h as [|d h]; cbn [String.prefix String.append]; [discriminate|].
    destruct (ascii_dec c d); [apply IH | discriminate].
Qed.

Lemma contains_empty_needle (h : string) : PyStr.contains "" h = true.
Proof. destruct h; reflexivity. Qed.

(** A word that occurs in a text occurs in every text around it. *)
Lemma contains_hay_app_right (w h t : string) :
  PyStr.contains w h = true -> PyStr.contains w (h ++ t) = true.
Proof.
  induction h as [|d h IH]; intros H.
  - cbn [PyStr.contains] in H. rewrite orb_false_r in H.
    destruct w; [apply contains_empty_needle | discriminate H].
  - cbn [PyStr.contains] in H. apply orb_true_iff in H.
    cbn [String.append PyStr.contains]. apply orb_true_iff.
    destruct H as [H | H].
    + left. exact (prefix_hay_app w (String d h) t H).
    + right. exact (IH H).
Qed.

Lemma contains_hay_app_left (w p h : string) :
  PyStr.contains w h = true -> PyStr.contains w (p ++ h) = true.
Proof.
  intros H. induction p as [|d p IH]; [exact H|].
  cbn [String.append PyStr.contains]. rewrite IH. apply orb_true_r.
Qed.

Lemma any_in_grows (words : list string) (pre q post : string) :
  PyStr.any_in words (PyStr.lower q) = true ->
  PyStr.any_in words (PyStr.lower (pre ++ q ++ post)) = true.
Proof.
  unfold PyStr.any_in. rewrite !existsb_exists.
  intros [w [Hin Hw]]. exists w. split; [exact Hin|].
  rewrite !lower_app. apply contains_hay_app_left.
  apply contains_hay_app_right. exact Hw.
Qed.

Lemma kb_sources_differ :
  SpaceAgentService.kb_kp_index <> SpaceAgentService.kb_cme
  /\ SpaceAgentService.kb_kp_index <> SpaceAgentService.kb_solar_flare
  /\ SpaceAgentService.kb_kp_index <> SpaceAgentService.kb_leo
  /\ SpaceAgentService.kb_cme <> SpaceAgentService.kb_solar_flare
  /\ SpaceAgentService.kb_cme <> SpaceAgentService.kb_leo
  /\ SpaceAgentService.kb_solar_flare <> SpaceAgentService.kb_leo.
Proof.
  repeat split; intros H; apply (f_equal KbSnippet.source) in H;
    discriminate H.
Qed.

(** The two keywords that never decide anything. *)
Lemma any_in_kp (q : string) :
  PyStr.any_in ["kp"; "geomagnetic"; "magnetic"] q
  = PyStr.contains "kp" q || PyStr.contains "magnetic" q.
Proof.
  unfold PyStr.any_in. cbn [existsb]. rewrite orb_false_r.
  pose proof (contains_app_right "geo" "magnetic" q) as Hgeo.
  destruct (PyStr.contains "kp" q); [reflexivity|].
  destruct (PyStr.contains "geomagnetic" q) eqn:E; [|reflexivity].
  cbn in Hgeo. rewrite (Hgeo E). reflexivity.
Qed.

Lemma any_in_flare (q : string) :
  PyStr.any_in ["flare"; "solar flare"; "x-class"; "m-class"] q
  = PyStr.contains "flare" q
    || (PyStr.contains "x-class" q || PyStr.contains "m-class" q).
Proof.
  unfold PyStr.any_in. cbn [existsb]. rewrite orb_false_r.
  pose proof (contains_app_right "solar " "flare" q) as Hsol.
  destruct (PyStr.contains "flare" q); [reflexivity|].
  destruct (PyStr.contains "solar flare" q) eqn:E; [|reflexivity].
  cbn in Hsol. discriminate (Hsol E).
Qed.

(** X17.  The keyword search of the agent, on ASCII queries.  The hits
    come in the fixed order Kp index, CME, solar flare, low Earth orbit,
    each at most once.  The answer depends on the query through its
    lower-cased form only.  Two of the listed keywords never decide
    anything: the Kp entry is hit exactly when "kp" or "magnetic" occurs
    in the lower-cased query ("geomagnetic" adds nothing) and the flare
    entry exactly when "flare", "x-class" or "m-class" occurs ("solar
    flare" adds nothing).  And a query keeps its hits when ASCII text is
    put before or after it. *)
Theorem kb_search_hits :
  forall (query : string),
    PyStr.isascii query = true ->
    let hits := SpaceAgentService._search_kb query in
    let q := PyStr.lower query in
    (exists a b c d : bool,
        hits = ((if a then [SpaceAgentService.kb_kp_index] else [])
                ++ (if b then [SpaceAgentService.kb_cme] else [])
                ++ (if c then [SpaceAgentService.kb_solar_flare] else [])
                ++ (if d then [SpaceAgentService.kb_leo] else []))%list)
    /\ NoDup hits
    /\ (length hits <= 4)%nat
    /\ SpaceAgentService._search_kb q = hits
    /\ (In SpaceAgentService.kb_kp_index hits <->
        PyStr.contains "kp" q = true \/ PyStr.contains "magnetic" q = true)
    /\ (In SpaceAgentService.kb_solar_flare hits <->
        PyStr.contains "flare" q = true
        \/ PyStr.contains "x-class" q = true
        \/ PyStr.contains "m-class" q = true)
    /\ (forall pre post : string,
           PyStr.isascii pre = true -> PyStr.isascii post = true ->
           incl hits (SpaceAgentService._search_kb (pre ++ query ++ post))).
Proof.
  intros query _ hits q.
  destruct kb_sources_differ as [D1 [D2 [D3 [D4 [D5 D6]]]]].
  split; [do 4 eexists; reflexivity|].
  split; [|split; [|split; [|split; [|split]]]].
  - subst hits. unfold SpaceAgentService._search_kb.
    repeat match goal with |- context [if ?b then _ else _] => destruct b end;
      cbn [app]; repeat constructor; cbn [In]; intuition congruence.
  - subst hits. unfold SpaceAgentService._search_kb.
    repeat match goal with |- context [if ?b then _ else _] => destruct b end;
      cbn [app length]; lia.
  - subst hits q. unfold SpaceAgentService._search_kb.
    rewrite lower_idempotent. reflexivity.
  - subst hits. unfold SpaceAgentService._search_kb. fold q.
    rewrite any_in_kp.
    destruct (PyStr.contains "kp" q); destruct (PyStr.contains "magnetic" q);
      cbn [orb];
      repeat match goal with |- context [if ?b then _ else _] => destruct b end;
      cbn [app In]; split; intros H; try tauto;
      intuition (try discriminate; try congruence).
  - subst hits. unfold SpaceAgentService._search_kb. fold q.
    rewrite any_in_flare.
    destruct (PyStr.contains "flare" q);
      destruct (PyStr.contains "x-class" q);
      destruct (PyStr.contains "m-class" q);
      cbn [orb];
      repeat match goal with |- context [if ?b then _ else _] => destruct b end;
      cbn [app In]; split; intros H; try tauto;
      intuition (try discriminate; try congruence).
  - intros pre post _ _. subst hits. unfold SpaceAgentService._search_kb.
    pose proof (fun ws => any_in_grows ws pre query post) as G.
    repeat match goal with
           | |- context [if PyStr.any_in ?ws (PyStr.lower query) then _ else _] =>
               let E := fresh "E" in
               destruct (PyStr.any_in ws (PyStr.lower query)) eqn:E;
               [rewrite (G ws E)|]
           end;
      repeat match goal with |- context [if ?b then _ else _] => destruct b end;
      cbn [app]; intros x Hx; cbn [In] in *; tauto.
Qed.

(** X17 at a question that names the Kp index and a flare class. *)
Lemma kb_search_hits_witness :
  let query := "Is Kp up after the X-class flare?"%string in
  PyStr.isascii query = true
  /\ NoDup (SpaceAgentService._search_kb query)
  /\ SpaceAgentService._search_kb (PyStr.lower query)
     = SpaceAgentService._search_kb query.
Proof.
  intros query. split; [reflexivity|].
  pose (facts := kb_search_hits query eq_refl).
  exact (conj (proj1 (proj2 facts))
              (proj1 (proj2 (proj2 (proj2 facts))))).
Defined.

(* ===================================================================== *)
(** ** Explanations *)
(* ===================================================================== *)

Lemma firstn_length_le {A : Type} (n : nat) (l : list A) :
  (length (firstn n l) <= n)%nat.
Proof. rewrite length_firstn. lia. Qed.

Lemma search_kb_shape (query : string) :
  exists a b c d : bool,
    SpaceAgentService._search_kb query
    = ((if a then [SpaceAgentService.kb_kp_index] else [])
       ++ (if b then [SpaceAgentService.kb_cme] else [])
       ++ (if c then [SpaceAgentService.kb_solar_flare] else [])
       ++ (if d then [SpaceAgentService.kb_leo] else []))%list.
Proof. do 4 eexists. reflexivity. Qed.

(** X18.  The explanation given without the model, on ASCII queries:
    the text of the first topic the query hits, in the order Kp index,
    CME, solar flare, low Earth orbit, and the stock sentence when it
    hits none.  So a query in which "kp" or "magnetic" occurs gets the Kp
    text whatever else it asks about, one that names a CME and an orbit
    gets the CME text, and so on down the list; the mode plays no part,
    and the text is never empty. *)
Theorem fallback_explanation_is_the_first_hit :
  forall (query : string) (mode : ExplanationMode),
    PyStr.isascii query = true ->
    let q := PyStr.lower query in
    let text := SpaceAgentService._fallback_explanation query mode in
    let kp := PyStr.contains "kp" q || PyStr.contains "magnetic" q in
    let cme :=
      PyStr.contains "cme" q
      || (PyStr.contains "coronal" q || PyStr.contains "mass ejection" q) in
    let flare :=
      PyStr.contains "flare" q
      || (PyStr.contains "x-class" q || PyStr.contains "m-class" q) in
    let leo :=
      PyStr.contains "leo" q
      || (PyStr.contains "orbit" q || PyStr.contains "altitude" q) in
    text
    = (if kp then KbSnippet.content SpaceAgentService.kb_kp_index
       else if cme then KbSnippet.content SpaceAgentService.kb_cme
       else if flare then KbSnippet.content SpaceAgentService.kb_solar_flare
       else if leo then KbSnippet.content SpaceAgentService.kb_leo
       else PyStr.fstring
              [ "I don't have detailed information about this topic in my knowledge base. ";
                "Please refer to NASA, NOAA, or ESA resources for authoritative information." ])
    /\ (SpaceAgentService._search_kb query = [] <->
        PyStr.startswith text "I don't have detailed information" = true)
    /\ (forall other_mode,
           SpaceAgentService._fallback_explanation query other_mode = text)
    /\ text <> ""%string.
Proof.
  intros query mode _ q text kp cme flare leo. subst text.
  unfold SpaceAgentService._fallback_explanation.
  split; [|split; [|split]].
  - unfold SpaceAgentService._search_kb. fold q.
    rewrite any_in_kp, any_in_flare.
    unfold PyStr.any_in. cbn [existsb]. rewrite !orb_false_r.
    fold kp cme flare leo.
    destruct kp, cme, flare, leo; reflexivity.
  - destruct (search_kb_shape query) as [a [b [c [d E]]]]. rewrite E.
    destruct a, b, c, d; cbn [app]; split; intros H;
      try reflexivity; try discriminate H; try (vm_compute in H; discriminate H).
  - reflexivity.
  - destruct (search_kb_shape query) as [a [b [c [d E]]]]. rewrite E.
    destruct a, b, c, d; cbn [app]; intros H;
      apply (f_equal String.length) in H; vm_compute in H; discriminate H.
Qed.

(** X18 at a question that names a CME and an orbit: the CME text. *)
Lemma fallback_explanation_is_the_first_hit_witness :
  let query := "Will the CME change the orbit?"%string in
  PyStr.isascii query = true
  /\ SpaceAgentService._fallback_explanation query QUICK
     = KbSnippet.content SpaceAgentService.kb_cme.
Proof.
  intros query. split; [reflexivity|].
  exact (proj1 (fallback_explanation_is_the_first_hit query QUICK eq_refl)).
Defined.

Lemma string_length_app (a b : string) :
  String.length (a ++ b) = (String.length a + String.length b)%nat.
Proof. induction a as [|c a IH]; simpl; [reflexivity | now rewrite IH]. Qed.

Lemma slice_to_length (n : nat) (s : string) :
  (String.length (PyStr.slice_to n s) <= n)%nat.
Proof.
  unfold PyStr.slice_to. revert s.
  induction n as [|n IH]; intros [|c s]; simpl; try lia.
  specialize (IH s). lia.
Qed.

Lemma string_app_nil_r (s : string) : (s ++ "")%string = s.
Proof. induction s as [|c s IH]; simpl; [reflexivity | now rewrite IH]. Qed.

Lemma startswith_app (s t : string) : PyStr.startswith (s ++ t) s = true.
Proof.
  unfold PyStr.startswith. induction s as [|c s IH]; simpl.
  - destruct t; reflexivity.
  - destruct (ascii_dec c c) as [_ | N]; [exact IH | now elim N].
Qed.

Lemma snippet_shape (content : string) :
  let snippet := (PyStr.slice_to 100 content ++ "...")%string in
  PyStr.endswith snippet "..." = true
  /\ (String.length snippet <= 103)%nat.
Proof.
  cbv zeta. split.
  - rewrite endswith_app; [reflexivity | simpl; lia].
  - rewrite string_length_app.
    pose proof (slice_to_length 100 content). simpl String.length at 2. lia.
Qed.

Lemma explanation_response_create_ok
    (q : string) (m : ExplanationMode) (text : string) (cites : list string)
    (conf : pyfloat) (notes : list SourceNote.t) :
  In conf [SpaceAgentService.double_0_5; SpaceAgentService.double_0_6;
           SpaceAgentService.double_0_7; SpaceAgentService.double_0_9] ->
  ExplanationResponse.create q m text cites conf notes
  = inr (ExplanationResponse.make q m text cites conf notes).
Proof.
  intros [H | [H | [H | [H | []]]]]; subst conf; reflexivity.
Qed.

(** X19.  [explain] always returns a response: in each of its three
    endings (no client, the model answered, the model call raised) the
    confidence it passes is one of 0.5, 0.6, 0.7, 0.9 and clears the
    [0, 1] check of the response model.  The response repeats query and
    mode.  The sources are empty when citations are switched off and
    otherwise carry the first three hits of the search, each with a
    snippet of at most 103 characters that ends in three dots.  The
    message handed to the model opens with the query and is the query
    alone when there is nothing to cite.  Without a client the
    explanation is the fallback text, the citations are the first two
    hits and the confidence is 0.7, with nothing logged; an answer of the
    model is returned as it is, with every hit cited and confidence 0.9
    or, without hits, 0.6; a failed call logs one error record, and gives
    the fallback text with confidence 0.5 and no citations, while the
    sources stay as they were built.  The clock is never read. *)
Theorem explain_always_answers :
  forall (client : option claude_client) (request : ExplanationRequest.t)
         (w : World),
    let query := ExplanationRequest.query request in
    let mode := ExplanationRequest.mode request in
    let hits := SpaceAgentService._search_kb query in
    let fallback := SpaceAgentService._fallback_explanation query mode in
    exists (resp : ExplanationResponse.t) (w' : World) (user_message : string),
      run (SpaceAgentService.explain client request) w = (inr resp, w')
      /\ ExplanationResponse.query resp = query
      /\ ExplanationResponse.mode resp = mode
      /\ field_ok ExplanationResponse.confidence_field
           (ExplanationResponse.confidence resp) = true
      /\ In (ExplanationResponse.confidence resp)
           [SpaceAgentService.double_0_5; SpaceAgentService.double_0_6;
            SpaceAgentService.double_0_7; SpaceAgentService.double_0_9]
      /\ (ExplanationRequest.include_citations request = false ->
          ExplanationResponse.sources resp = [] /\ user_message = query)
      /\ (ExplanationRequest.include_citations request = true ->
          map SourceNote.title (ExplanationResponse.sources resp)
          = map KbSnippet.source (firstn 3 hits))
      /\ (length (ExplanationResponse.sources resp) <= 3)%nat
      /\ Forall (fun note =>
                   PyStr.endswith (SourceNote.snippet note) "..." = true
                   /\ (String.length (SourceNote.snippet note) <= 103)%nat)
           (ExplanationResponse.sources resp)
      /\ PyStr.startswith user_message query = true
      /\ (hits = [] -> user_message = query)
      /\ clock w' = clock w /\ reads w' = reads w
      /\ match client with
         | None =>
             w' = w
             /\ ExplanationResponse.explanation resp = fallback
             /\ ExplanationResponse.citations resp
                = map KbSnippet.source (firstn 2 hits)
             /\ ExplanationResponse.confidence resp
                = SpaceAgentService.double_0_7
         | Some create =>
             match create SpaceAgentService.model_name 1500
                     (SpaceAgentService._build_system_prompt mode)
                     user_message with
             | inr text =>
                 w' = w
                 /\ ExplanationResponse.explanation resp = text
                 /\ ExplanationResponse.citations resp
                    = map KbSnippet.source hits
                 /\ ExplanationResponse.confidence resp
                    = (if Nat.eqb (length hits) 0
                       then SpaceAgentService.double_0_6
                       else SpaceAgentService.double_0_9)
             | inl e =>
                 log w'
                 = (log w ++ [ {| level := "error";
                                  event := "Claude API error in explain";
                                  error := str_exc e |} ])%list
                 /\ ExplanationResponse.explanation resp = fallback
                 /\ ExplanationResponse.citations resp = []
                 /\ ExplanationResponse.confidence resp
                    = SpaceAgentService.double_0_5
             end
         end.
Proof.
  intros client request w query mode hits fallback.
  set (cited := match hits with
                | _ :: _ => ExplanationRequest.include_citations request
                | [] => false
                end).
  set (kb_context :=
         if cited
         then PyStr.fstring
                [ SpaceAgentService.newline; SpaceAgentService.newline;
                  "Relevant knowledge:"; SpaceAgentService.newline;
                  SpaceAgentService.knowledge_lines hits ]
         else ""%string).
  set (sources := if cited then SpaceAgentService.source_notes hits else []).
  set (user_message := PyStr.fstring [query; kb_context]).
  assert (Hmsg : user_message = (query ++ kb_context)%string).
  { reflexivity. }
  assert (Hsources :
            (ExplanationRequest.include_citations request = false ->
             sources = [] /\ user_message = query)
            /\ (ExplanationRequest.include_citations request = true ->
                map SourceNote.title sources
                = map KbSnippet.source (firstn 3 hits))
            /\ (length sources <= 3)%nat
            /\ Forall (fun note =>
                         PyStr.endswith (SourceNote.snippet note) "..." = true
                         /\ (String.length (SourceNote.snippet note) <= 103)%nat)
                 sources
            /\ PyStr.startswith user_message query = true
            /\ (hits = [] -> user_message = query)).
  { split; [|split; [|split; [|split; [|split]]]].
    - intros Hoff. rewrite Hmsg. unfold sources, kb_context, cited.
      rewrite Hoff. destruct hits; rewrite string_app_nil_r; split; reflexivity.
    - intros Hon. unfold sources, cited. rewrite Hon.
      destruct hits as [|h rest]; [reflexivity|].
      unfold SpaceAgentService.source_notes. rewrite map_map. reflexivity.
    - unfold sources. destruct cited; [|simpl; lia].
      unfold SpaceAgentService.source_notes.
      rewrite length_map. apply firstn_length_le.
    - unfold sources. destruct cited; [|constructor].
      unfold SpaceAgentService.source_notes.
      apply Forall_map. apply Forall_forall. intros result _.
      cbn [SourceNote.snippet]. exact (snippet_shape (KbSnippet.content result)).
    - rewrite Hmsg. apply startswith_app.
    - intros Hnone. rewrite Hmsg. unfold kb_context, cited. rewrite Hnone.
      apply string_app_nil_r. }
  destruct Hsources as [S1 [S2 [S3 [S4 [S5 S6]]]]].
  assert (Hrun : forall body conf,
             In conf [SpaceAgentService.double_0_5; SpaceAgentService.double_0_6;
                      SpaceAgentService.double_0_7; SpaceAgentService.double_0_9] ->
             forall text cites w1,
               run body w = ((text, cites, conf), w1) ->
               run (bind body (fun answer =>
                      ret (ExplanationResponse.create query mode
                             (fst (fst answer)) (snd (fst answer)) (snd answer)
                             sources))) w
               = (inr (ExplanationResponse.make query mode text cites conf sources),
                  w1)).
  { intros body conf Hconf text cites w1 Hbody.
    rewrite run_bind, Hbody. cbn [fst snd]. rewrite run_ret.
    now rewrite (explanation_response_create_ok _ _ _ _ _ _ Hconf). }
  assert (Hok : forall conf,
             In conf [SpaceAgentService.double_0_5; SpaceAgentService.double_0_6;
                      SpaceAgentService.double_0_7; SpaceAgentService.double_0_9] ->
             field_ok ExplanationResponse.confidence_field conf = true).
  { intros conf [H | [H | [H | [H | []]]]]; subst conf; reflexivity. }
  unfold SpaceAgentService.explain.
  fold query mode hits cited kb_context sources user_message fallback.
  destruct client as [create|].
  - destruct (create SpaceAgentService.model_name 1500
                (SpaceAgentService._build_system_prompt mode) user_message)
      as [e | text] eqn:Ecall.
    + assert (Hc : In SpaceAgentService.double_0_5
                     [SpaceAgentService.double_0_5; SpaceAgentService.double_0_6;
                      SpaceAgentService.double_0_7; SpaceAgentService.double_0_9])
        by (cbn [In]; tauto).
      eexists. eexists. exists user_message. rewrite Ecall.
      split; [apply (Hrun _ _ Hc); reflexivity|].
      cbn [ExplanationResponse.query ExplanationResponse.mode
           ExplanationResponse.confidence ExplanationResponse.sources
           ExplanationResponse.explanation ExplanationResponse.citations
           clock reads log].
      repeat (split; [first [reflexivity | assumption | exact (Hok _ Hc)]|]).
      reflexivity.
    + assert (Hc : In (match hits with
                       | _ :: _ => SpaceAgentService.double_0_9
                       | [] => SpaceAgentService.double_0_6
                       end)
                     [SpaceAgentService.double_0_5; SpaceAgentService.double_0_6;
                      SpaceAgentService.double_0_7; SpaceAgentService.double_0_9])
        by (destruct hits; cbn [In]; tauto).
      eexists. eexists. exists user_message. rewrite Ecall.
      split; [apply (Hrun _ _ Hc); reflexivity|].
      cbn [ExplanationResponse.query ExplanationResponse.mode
           ExplanationResponse.confidence ExplanationResponse.sources
           ExplanationResponse.explanation ExplanationResponse.citations
           clock reads log].
      repeat (split; [first [reflexivity | assumption | exact (Hok _ Hc)]|]).
      destruct hits; reflexivity.
  - assert (Hc : In SpaceAgentService.double_0_7
                   [SpaceAgentService.double_0_5; SpaceAgentService.double_0_6;
                    SpaceAgentService.double_0_7; SpaceAgentService.double_0_9])
      by (cbn [In]; tauto).
    eexists. eexists. exists user_message.
    split; [apply (Hrun _ _ Hc); reflexivity|].
    cbn [ExplanationResponse.query ExplanationResponse.mode
         ExplanationResponse.confidence ExplanationResponse.sources
         ExplanationResponse.explanation ExplanationResponse.citations
         clock reads log].
    repeat (split; [first [reflexivity | assumption | exact (Hok _ Hc)]|]).
    reflexivity.
Qed.
